(** * aiosmtplib: the connection manager ([aiosmtplib/connection.py])

    A shallow embedding of [SMTPConnection]: its stored configuration, the
    connect-time settings merge, configuration validation, the connect
    handshake, command execution and teardown.

    The instance is a record that every method threads explicitly.  What the
    event loop, the [ssl] module and the protocol engine answer is supplied
    by an environment record ([Env]); each awaited operation is looked up
    there once, and the I/O the manager asks for is appended to a log kept
    next to the instance. *)

From Stdlib Require Import ZArith QArith List String Ascii Bool Lia.
Import ListNotations.
Open Scope Z_scope.
Open Scope string_scope.
Open Scope list_scope.

Set Implicit Arguments.

(** ** Values of the configuration *)

(** [SocketPathType]: a [str], a [bytes] or an [os.PathLike] object. *)
Inductive SocketPathType : Type :=
| PathStr (s : string)
| PathBytes (b : string)
| PathLike (p : string).

(** [source_address] is declared as a [(host, port)] pair, but both
    [__init__] and the settings merge test [isinstance(source_address, str)]
    for the deprecated spelling. *)
Inductive SourceAddress : Type :=
| SrcTuple (host : string) (port : Z)
| SrcStr (s : string).

(** [username] / [password]: [Union[str, bytes]]. *)
Inductive Credential : Type :=
| CredStr (s : string)
| CredBytes (b : string).

(** A socket object handed in by the caller, known by its descriptor. *)
Record Socket : Type := MkSocket { fileno : nat }.

Inductive VerifyMode : Type := CERT_NONE | CERT_REQUIRED.

(** The part of an [ssl.SSLContext] that [_get_tls_context] sets. *)
Record SSLContext : Type := MkSSLContext {
  check_hostname : bool;
  verify_mode : VerifyMode;
  verify_locations : option string;
  cert_chain : option (string * option string)
}.

Record Transport : Type := MkTransport {
  transport_id : nat;
  is_closing : bool
}.

Record EventLoop : Type := MkEventLoop { loop_id : nat }.

(** [SMTPProtocol(loop=..., connection_lost_callback=self._connection_lost)]:
    the engine object; its behaviour is the environment's. *)
Record SMTPProtocol : Type := MkSMTPProtocol { protocol_loop : EventLoop }.

(** [asyncio.Lock]: only [locked()] is observed. *)
Record Lock : Type := MkLock { locked : bool }.

Record SMTPResponse : Type := MkSMTPResponse {
  code : Z;
  message : string
}.

Definition SMTP_PORT : Z := 25.
Definition SMTP_TLS_PORT : Z := 465.
Definition SMTP_STARTTLS_PORT : Z := 587.
Definition DEFAULT_TIMEOUT : Q := 60 # 1.

(** Modelled from the spec: [SMTPStatus.ready], declared in
    [aiosmtplib/typing.py]; the "service ready" status, 220. *)
Definition SMTPStatus_ready : Z := 220.

(** Modelled from the spec: [SMTPStatus.domain_unavailable], declared in
    [aiosmtplib/typing.py]; the "service not available" status, 421. *)
Definition SMTPStatus_domain_unavailable : Z := 421.

(** ** Python truthiness of the values tested with [if x] / [any([...])] *)

Definition truthy_str (s : string) : bool :=
  match s with EmptyString => false | String _ _ => true end.

Definition truthy_opt_str (o : option string) : bool :=
  match o with None => false | Some s => truthy_str s end.

Definition truthy_opt_int (o : option Z) : bool :=
  match o with None => false | Some n => negb (Z.eqb n 0) end.

Definition truthy_opt_bool (o : option bool) : bool :=
  match o with None => false | Some b => b end.

Definition truthy_path (p : SocketPathType) : bool :=
  match p with
  | PathStr s => truthy_str s
  | PathBytes b => truthy_str b
  | PathLike _ => true
  end.

Definition truthy_opt_path (o : option SocketPathType) : bool :=
  match o with None => false | Some p => truthy_path p end.

Definition is_not_None {A : Type} (o : option A) : bool :=
  match o with None => false | Some _ => true end.

(** [c in s] for a one-character [c]. *)
Fixpoint char_in (c : ascii) (s : string) : bool :=
  match s with
  | EmptyString => false
  | String d rest => if Ascii.eqb c d then true else char_in c rest
  end.

Definition CR : ascii := "013"%char.
Definition LF : ascii := "010"%char.

(** ** Exceptions *)

(** An exception raised by the interpreter's own libraries ([asyncio],
    [socket], [ssl]).  The handlers of [_create_connection] test its class
    with [except OSError] and [except asyncio.TimeoutError], in that order;
    the two tests are kept as separate flags, since whether the timeout class
    is an [OSError] is a fact of the interpreter, not of this module. *)
Record PyExc : Type := MkPyExc {
  exc_is_OSError : bool;
  exc_is_asyncio_TimeoutError : bool;
  exc_str : string
}.

(** The text of a connect error, with the values the f-string formats kept
    apart. *)
Inductive ConnectMsg : Type :=
| MsgErrorConnecting (hostname : option string) (port : option Z) (exc : string)
| MsgTimedOutConnecting (hostname : option string) (port : option Z)
| MsgTimedOutWaitingReady
| MsgResponse (response : SMTPResponse).

(** The exceptions that travel through this module.  All of them are
    instances of [Exception], which is what [connect]'s handler catches;
    cancellation, delivered to a task from outside it, is not modelled. *)
Unset Elimination Schemes.
Inductive Exn : Type :=
| ValueError (msg : string)
| RuntimeError (msg : string)
| SMTPServerDisconnected (msg : string)
| SMTPTimeoutError (msg : string)
| SMTPConnectError (msg : ConnectMsg) (cause : option Exn)
| SMTPConnectTimeoutError (msg : ConnectMsg) (cause : option Exn)
| PyException (e : PyExc).
Set Elimination Schemes.

(** Modelled from the spec: the error taxonomy of the design (its section on
    error handling); [aiosmtplib/errors.py], which declares the exception
    classes, is not among the sources.  [taxonomy] files each exception this
    module raises under the member that names it. *)
Inductive Taxonomy : Type :=
| ConfigurationError
| ConnectError
| ConnectTimeout
| CommandTimeout
| ServerDisconnected
| NotConnected
| ResponseError
| Unclassified.

Definition taxonomy (e : Exn) : Taxonomy :=
  match e with
  | ValueError _ => ConfigurationError
  | SMTPConnectError _ _ => ConnectError
  | SMTPConnectTimeoutError _ _ => ConnectTimeout
  | SMTPTimeoutError _ => CommandTimeout
  | SMTPServerDisconnected _ => ServerDisconnected
  | RuntimeError _ => Unclassified
  | PyException _ => Unclassified
  end.

(** ** The instance *)

Record SMTPConnection : Type := MkSMTPConnection {
  protocol : option SMTPProtocol;
  transport : option Transport;
  hostname : option string;
  port : option Z;
  _login_username : option Credential;
  _login_password : option Credential;
  _local_hostname : option string;
  timeout : option Q;
  use_tls : bool;
  _start_tls_on_connect : option bool;
  validate_certs : bool;
  client_cert : option string;
  client_key : option string;
  tls_context : option SSLContext;
  cert_bundle : option string;
  socket_path : option SocketPathType;
  sock : option Socket;
  source_address : option SourceAddress;
  loop : option EventLoop;
  _connect_lock : option Lock
}.

(** Field updates, one per attribute the methods assign. *)
Definition set_protocol v (s : SMTPConnection) : SMTPConnection :=
  MkSMTPConnection v s.(transport) s.(hostname) s.(port) s.(_login_username)
    s.(_login_password) s.(_local_hostname) s.(timeout) s.(use_tls)
    s.(_start_tls_on_connect) s.(validate_certs) s.(client_cert) s.(client_key)
    s.(tls_context) s.(cert_bundle) s.(socket_path) s.(sock) s.(source_address)
    s.(loop) s.(_connect_lock).
Definition set_transport v (s : SMTPConnection) : SMTPConnection :=
  MkSMTPConnection s.(protocol) v s.(hostname) s.(port) s.(_login_username)
    s.(_login_password) s.(_local_hostname) s.(timeout) s.(use_tls)
    s.(_start_tls_on_connect) s.(validate_certs) s.(client_cert) s.(client_key)
    s.(tls_context) s.(cert_bundle) s.(socket_path) s.(sock) s.(source_address)
    s.(loop) s.(_connect_lock).
Definition set_hostname v (s : SMTPConnection) : SMTPConnection :=
  MkSMTPConnection s.(protocol) s.(transport) v s.(port) s.(_login_username)
    s.(_login_password) s.(_local_hostname) s.(timeout) s.(use_tls)
    s.(_start_tls_on_connect) s.(validate_certs) s.(client_cert) s.(client_key)
    s.(tls_context) s.(cert_bundle) s.(socket_path) s.(sock) s.(source_address)
    s.(loop) s.(_connect_lock).
Definition set_port v (s : SMTPConnection) : SMTPConnection :=
  MkSMTPConnection s.(protocol) s.(transport) s.(hostname) v s.(_login_username)
    s.(_login_password) s.(_local_hostname) s.(timeout) s.(use_tls)
    s.(_start_tls_on_connect) s.(validate_certs) s.(client_cert) s.(client_key)
    s.(tls_context) s.(cert_bundle) s.(socket_path) s.(sock) s.(source_address)
    s.(loop) s.(_connect_lock).
Definition set_login_username v (s : SMTPConnection) : SMTPConnection :=
  MkSMTPConnection s.(protocol) s.(transport) s.(hostname) s.(port) v
    s.(_login_password) s.(_local_hostname) s.(timeout) s.(use_tls)
    s.(_start_tls_on_connect) s.(validate_certs) s.(client_cert) s.(client_key)
    s.(tls_context) s.(cert_bundle) s.(socket_path) s.(sock) s.(source_address)
    s.(loop) s.(_connect_lock).
Definition set_login_password v (s : SMTPConnection) : SMTPConnection :=
  MkSMTPConnection s.(protocol) s.(transport) s.(hostname) s.(port)
    s.(_login_username) v s.(_local_hostname) s.(timeout) s.(use_tls)
    s.(_start_tls_on_connect) s.(validate_certs) s.(client_cert) s.(client_key)
    s.(tls_context) s.(cert_bundle) s.(socket_path) s.(sock) s.(source_address)
    s.(loop) s.(_connect_lock).
Definition set_local_hostname v (s : SMTPConnection) : SMTPConnection :=
  MkSMTPConnection s.(protocol) s.(transport) s.(hostname) s.(port)
    s.(_login_username) s.(_login_password) v s.(timeout) s.(use_tls)
    s.(_start_tls_on_connect) s.(validate_certs) s.(client_cert) s.(client_key)
    s.(tls_context) s.(cert_bundle) s.(socket_path) s.(sock) s.(source_address)
    s.(loop) s.(_connect_lock).
Definition set_timeout v (s : SMTPConnection) : SMTPConnection :=
  MkSMTPConnection s.(protocol) s.(transport) s.(hostname) s.(port)
    s.(_login_username) s.(_login_password) s.(_local_hostname) v s.(use_tls)
    s.(_start_tls_on_connect) s.(validate_certs) s.(client_cert) s.(client_key)
    s.(tls_context) s.(cert_bundle) s.(socket_path) s.(sock) s.(source_address)
    s.(loop) s.(_connect_lock).
Definition set_use_tls v (s : SMTPConnection) : SMTPConnection :=
  MkSMTPConnection s.(protocol) s.(transport) s.(hostname) s.(port)
    s.(_login_username) s.(_login_password) s.(_local_hostname) s.(timeout) v
    s.(_start_tls_on_connect) s.(validate_certs) s.(client_cert) s.(client_key)
    s.(tls_context) s.(cert_bundle) s.(socket_path) s.(sock) s.(source_address)
    s.(loop) s.(_connect_lock).
Definition set_start_tls_on_connect v (s : SMTPConnection) : SMTPConnection :=
  MkSMTPConnection s.(protocol) s.(transport) s.(hostname) s.(port)
    s.(_login_username) s.(_login_password) s.(_local_hostname) s.(timeout)
    s.(use_tls) v s.(validate_certs) s.(client_cert) s.(client_key)
    s.(tls_context) s.(cert_bundle) s.(socket_path) s.(sock) s.(source_address)
    s.(loop) s.(_connect_lock).
Definition set_validate_certs v (s : SMTPConnection) : SMTPConnection :=
  MkSMTPConnection s.(protocol) s.(transport) s.(hostname) s.(port)
    s.(_login_username) s.(_login_password) s.(_local_hostname) s.(timeout)
    s.(use_tls) s.(_start_tls_on_connect) v s.(client_cert) s.(client_key)
    s.(tls_context) s.(cert_bundle) s.(socket_path) s.(sock) s.(source_address)
    s.(loop) s.(_connect_lock).
Definition set_client_cert v (s : SMTPConnection) : SMTPConnection :=
  MkSMTPConnection s.(protocol) s.(transport) s.(hostname) s.(port)
    s.(_login_username) s.(_login_password) s.(_local_hostname) s.(timeout)
    s.(use_tls) s.(_start_tls_on_connect) s.(validate_certs) v s.(client_key)
    s.(tls_context) s.(cert_bundle) s.(socket_path) s.(sock) s.(source_address)
    s.(loop) s.(_connect_lock).
Definition set_client_key v (s : SMTPConnection) : SMTPConnection :=
  MkSMTPConnection s.(protocol) s.(transport) s.(hostname) s.(port)
    s.(_login_username) s.(_login_password) s.(_local_hostname) s.(timeout)
    s.(use_tls) s.(_start_tls_on_connect) s.(validate_certs) s.(client_cert) v
    s.(tls_context) s.(cert_bundle) s.(socket_path) s.(sock) s.(source_address)
    s.(loop) s.(_connect_lock).
Definition set_tls_context v (s : SMTPConnection) : SMTPConnection :=
  MkSMTPConnection s.(protocol) s.(transport) s.(hostname) s.(port)
    s.(_login_username) s.(_login_password) s.(_local_hostname) s.(timeout)
    s.(use_tls) s.(_start_tls_on_connect) s.(validate_certs) s.(client_cert)
    s.(client_key) v s.(cert_bundle) s.(socket_path) s.(sock) s.(source_address)
    s.(loop) s.(_connect_lock).
Definition set_cert_bundle v (s : SMTPConnection) : SMTPConnection :=
  MkSMTPConnection s.(protocol) s.(transport) s.(hostname) s.(port)
    s.(_login_username) s.(_login_password) s.(_local_hostname) s.(timeout)
    s.(use_tls) s.(_start_tls_on_connect) s.(validate_certs) s.(client_cert)
    s.(client_key) s.(tls_context) v s.(socket_path) s.(sock) s.(source_address)
    s.(loop) s.(_connect_lock).
Definition set_socket_path v (s : SMTPConnection) : SMTPConnection :=
  MkSMTPConnection s.(protocol) s.(transport) s.(hostname) s.(port)
    s.(_login_username) s.(_login_password) s.(_local_hostname) s.(timeout)
    s.(use_tls) s.(_start_tls_on_connect) s.(validate_certs) s.(client_cert)
    s.(client_key) s.(tls_context) s.(cert_bundle) v s.(sock) s.(source_address)
    s.(loop) s.(_connect_lock).
Definition set_sock v (s : SMTPConnection) : SMTPConnection :=
  MkSMTPConnection s.(protocol) s.(transport) s.(hostname) s.(port)
    s.(_login_username) s.(_login_password) s.(_local_hostname) s.(timeout)
    s.(use_tls) s.(_start_tls_on_connect) s.(validate_certs) s.(client_cert)
    s.(client_key) s.(tls_context) s.(cert_bundle) s.(socket_path) v
    s.(source_address) s.(loop) s.(_connect_lock).
Definition set_source_address v (s : SMTPConnection) : SMTPConnection :=
  MkSMTPConnection s.(protocol) s.(transport) s.(hostname) s.(port)
    s.(_login_username) s.(_login_password) s.(_local_hostname) s.(timeout)
    s.(use_tls) s.(_start_tls_on_connect) s.(validate_certs) s.(client_cert)
    s.(client_key) s.(tls_context) s.(cert_bundle) s.(socket_path) s.(sock) v
    s.(loop) s.(_connect_lock).
Definition set_loop v (s : SMTPConnection) : SMTPConnection :=
  MkSMTPConnection s.(protocol) s.(transport) s.(hostname) s.(port)
    s.(_login_username) s.(_login_password) s.(_local_hostname) s.(timeout)
    s.(use_tls) s.(_start_tls_on_connect) s.(validate_certs) s.(client_cert)
    s.(client_key) s.(tls_context) s.(cert_bundle) s.(socket_path) s.(sock)
    s.(source_address) v s.(_connect_lock).
Definition set_connect_lock v (s : SMTPConnection) : SMTPConnection :=
  MkSMTPConnection s.(protocol) s.(transport) s.(hostname) s.(port)
    s.(_login_username) s.(_login_password) s.(_local_hostname) s.(timeout)
    s.(use_tls) s.(_start_tls_on_connect) s.(validate_certs) s.(client_cert)
    s.(client_key) s.(tls_context) s.(cert_bundle) s.(socket_path) s.(sock)
    s.(source_address) s.(loop) v.

(** ** Arguments *)

(** A keyword argument whose default is the [_default] sentinel: either left
    at the sentinel or given a value (which may itself be [None]). *)
Inductive Default (A : Type) : Type :=
| _default
| Given (v : A).
Arguments _default {A}.
Arguments Given {A} v.

(** The keyword arguments of [connect] and [_update_settings_from_kwargs].
    [use_tls] and [validate_certs] default to [None], not to the sentinel. *)
Record Kwargs : Type := MkKwargs {
  kw_hostname : Default (option string);
  kw_port : Default (option Z);
  kw_username : Default (option Credential);
  kw_password : Default (option Credential);
  kw_local_hostname : Default (option string);
  kw_source_address : Default (option SourceAddress);
  kw_timeout : Default (option Q);
  kw_use_tls : option bool;
  kw_start_tls : Default (option bool);
  kw_validate_certs : option bool;
  kw_client_cert : Default (option string);
  kw_client_key : Default (option string);
  kw_tls_context : Default (option SSLContext);
  kw_cert_bundle : Default (option string);
  kw_socket_path : Default (option SocketPathType);
  kw_sock : Default (option Socket)
}.

(** [connect()] with no argument. *)
Definition no_kwargs : Kwargs :=
  MkKwargs _default _default _default _default _default _default _default
    None _default None _default _default _default _default _default _default.

(** The arguments of [__init__]. *)
Record InitArgs : Type := MkInitArgs {
  arg_hostname : option string;
  arg_port : option Z;
  arg_username : option Credential;
  arg_password : option Credential;
  arg_local_hostname : option string;
  arg_source_address : option SourceAddress;
  arg_timeout : option Q;
  arg_use_tls : bool;
  arg_start_tls : option bool;
  arg_validate_certs : bool;
  arg_client_cert : option string;
  arg_client_key : option string;
  arg_tls_context : option SSLContext;
  arg_cert_bundle : option string;
  arg_socket_path : option SocketPathType;
  arg_sock : option Socket
}.

(** The defaults of [__init__]'s signature. *)
Definition default_args : InitArgs :=
  {| arg_hostname := Some "localhost";
     arg_port := None;
     arg_username := None;
     arg_password := None;
     arg_local_hostname := None;
     arg_source_address := None;
     arg_timeout := Some DEFAULT_TIMEOUT;
     arg_use_tls := false;
     arg_start_tls := None;
     arg_validate_certs := true;
     arg_client_cert := None;
     arg_client_key := None;
     arg_tls_context := None;
     arg_cert_bundle := None;
     arg_socket_path := None;
     arg_sock := None |}.

(** ** Settings merge and validation *)

(** [if x is not _default: self.f = x]. *)
Definition assign_if_given {A : Type} (x : Default A)
    (set : A -> SMTPConnection -> SMTPConnection) (s : SMTPConnection)
    : SMTPConnection :=
  match x with _default => s | Given v => set v s end.

(** [if x is not None: self.f = x]. *)
Definition assign_if_not_None {A : Type} (x : option A)
    (set : A -> SMTPConnection -> SMTPConnection) (s : SMTPConnection)
    : SMTPConnection :=
  match x with None => s | Some v => set v s end.

(** The [source_address] branch of the merge: a string goes to
    [_local_hostname] (the deprecated spelling; the [DeprecationWarning] it
    emits is not recorded), anything else to [source_address]. *)
Definition assign_source_address (x : Default (option SourceAddress))
    (s : SMTPConnection) : SMTPConnection :=
  match x with
  | _default => s
  | Given (Some (SrcStr str)) => set_local_hostname (Some str) s
  | Given v => set_source_address v s
  end.

Definition _update_settings_from_kwargs (kw : Kwargs) (s : SMTPConnection)
    : SMTPConnection :=
  let s := assign_if_given kw.(kw_hostname) set_hostname s in
  let s := assign_if_not_None kw.(kw_use_tls) set_use_tls s in
  let s := assign_if_given kw.(kw_start_tls) set_start_tls_on_connect s in
  let s := assign_if_not_None kw.(kw_validate_certs) set_validate_certs s in
  let s := assign_if_given kw.(kw_port) set_port s in
  let s := assign_if_given kw.(kw_username) set_login_username s in
  let s := assign_if_given kw.(kw_password) set_login_password s in
  let s := assign_if_given kw.(kw_timeout) set_timeout s in
  let s := assign_if_given kw.(kw_local_hostname) set_local_hostname s in
  let s := assign_source_address kw.(kw_source_address) s in
  let s := assign_if_given kw.(kw_client_cert) set_client_cert s in
  let s := assign_if_given kw.(kw_client_key) set_client_key s in
  let s := assign_if_given kw.(kw_tls_context) set_tls_context s in
  let s := assign_if_given kw.(kw_cert_bundle) set_cert_bundle s in
  let s := assign_if_given kw.(kw_socket_path) set_socket_path s in
  assign_if_given kw.(kw_sock) set_sock s.

Definition has_newline (o : option string) : bool :=
  match o with
  | None => false
  | Some s => char_in CR s || char_in LF s
  end.

(** [_validate_config]: the [ValueError] it raises, or [None] when it
    returns. *)
Definition _validate_config (s : SMTPConnection) : option Exn :=
  if truthy_opt_bool s.(_start_tls_on_connect) && s.(use_tls) then
    Some (ValueError "The start_tls and use_tls options are not compatible.")
  else if is_not_None s.(tls_context) && is_not_None s.(client_cert) then
    Some (ValueError "Either a TLS context or a certificate/key must be provided")
  else if is_not_None s.(sock)
          && (truthy_opt_str s.(hostname) || truthy_opt_int s.(port)
              || truthy_opt_path s.(socket_path)) then
    Some (ValueError
      "The socket option is not compatible with hostname, port or socket_path")
  else if is_not_None s.(socket_path)
          && (truthy_opt_str s.(hostname) || truthy_opt_int s.(port)) then
    Some (ValueError "The socket_path option is not compatible with hostname/port")
  else if has_newline s.(_local_hostname) then
    Some (ValueError
      "The local_hostname param contains prohibited newline characters")
  else if has_newline s.(hostname) then
    Some (ValueError "The hostname param contains prohibited newline characters")
  else None.

(** [__init__]'s treatment of [source_address]: a non-empty string is the
    deprecated spelling of [local_hostname] (the [DeprecationWarning] is not
    recorded); anything else, the empty string included, is stored as the
    source address.  The pair is ([_local_hostname], [source_address]). *)
Definition init_source_address (a : InitArgs)
    : option string * option SourceAddress :=
  match a.(arg_source_address) with
  | Some (SrcStr (String c rest)) => (Some (String c rest), None)
  | other => (a.(arg_local_hostname), other)
  end.

(** The instance as [__init__] leaves it before validating. *)
Definition init_fields (a : InitArgs) : SMTPConnection :=
  {| protocol := None;
     transport := None;
     hostname := a.(arg_hostname);
     port := a.(arg_port);
     _login_username := a.(arg_username);
     _login_password := a.(arg_password);
     _local_hostname := fst (init_source_address a);
     timeout := a.(arg_timeout);
     use_tls := a.(arg_use_tls);
     _start_tls_on_connect := a.(arg_start_tls);
     validate_certs := a.(arg_validate_certs);
     client_cert := a.(arg_client_cert);
     client_key := a.(arg_client_key);
     tls_context := a.(arg_tls_context);
     cert_bundle := a.(arg_cert_bundle);
     socket_path := a.(arg_socket_path);
     sock := a.(arg_sock);
     source_address := snd (init_source_address a);
     loop := None;
     _connect_lock := None |}.

(** [SMTPConnection(...)]: the instance, or the [ValueError] of
    [_validate_config]. *)
Definition __init__ (a : InitArgs) : Exn + SMTPConnection :=
  let s := init_fields a in
  match _validate_config s with
  | Some e => inl e
  | None => inr s
  end.

(** ** The environment and the I/O log *)

(** What [_create_connection] asks the event loop to open. *)
Inductive ConnectCoro : Type :=
| create_connection_sock (sock : Socket) (ssl : option SSLContext)
    (ssl_handshake_timeout : option Q)
| create_unix_connection (path : SocketPathType) (ssl : option SSLContext)
    (ssl_handshake_timeout : option Q)
| create_connection_host (host : string) (port : Z) (ssl : option SSLContext)
    (ssl_handshake_timeout : option Q) (local_addr : option SourceAddress).

Inductive IOEvent : Type :=
| EvLoadVerifyLocations (cafile : string)
| EvLoadCertChain (certfile : string) (keyfile : option string)
| EvWaitForConnection (coro : ConnectCoro) (timeout : option Q)
| EvReadResponse (timeout : option Q)
| EvExecuteCommand (args : list string) (timeout : option Q)
| EvTransportClose (transport_id : nat).

(** The answers of everything outside this module, for one call. *)
Record Env : Type := MkEnv {
  get_running_loop : EventLoop;
  load_verify_locations : string -> option PyExc;
  load_cert_chain : string -> option string -> option PyExc;
  wait_for_connection : ConnectCoro -> option Q -> PyExc + Transport;
  protocol_read_response : option Q -> Exn + SMTPResponse;
  protocol_execute_command : list string -> option Q -> Exn + SMTPResponse;
  get_extra_info : Transport -> string -> option string
}.

(** The instance together with the I/O performed so far (latest last). *)
Record State : Type := MkState {
  self : SMTPConnection;
  io : list IOEvent
}.

(** How a call ends: it returns, it raises, or it is left waiting on the
    connect lock, which only another task can release. *)
Inductive Outcome (A : Type) : Type :=
| Returned (a : A)
| Raised (e : Exn)
| Blocked.
Arguments Returned {A} a.
Arguments Raised {A} e.
Arguments Blocked {A}.

Definition M (A : Type) : Type := State -> Outcome A * State.

Definition ret {A : Type} (a : A) : M A := fun st => (Returned a, st).

Definition raise {A : Type} (e : Exn) : M A := fun st => (Raised e, st).

Definition bind {A B : Type} (m : M A) (k : A -> M B) : M B :=
  fun st =>
    match m st with
    | (Returned a, st') => k a st'
    | (Raised e, st') => (Raised e, st')
    | (Blocked, st') => (Blocked, st')
    end.

Declare Scope py_scope.
Delimit Scope py_scope with py.
Notation "x <- m ;; k" := (bind m (fun x => k))
  (at level 61, m at next level, right associativity) : py_scope.
Notation "m ;;; k" := (bind m (fun _ => k))
  (at level 61, right associativity) : py_scope.
Open Scope py_scope.

(** [try: m except Exception as exc: h exc]. *)
Definition try_except {A : Type} (m : M A) (h : Exn -> M A) : M A :=
  fun st =>
    match m st with
    | (Raised e, st') => h e st'
    | other => other
    end.

Definition get_self : M SMTPConnection := fun st => (Returned st.(self), st).

Definition modify (f : SMTPConnection -> SMTPConnection) : M unit :=
  fun st => (Returned tt, MkState (f st.(self)) st.(io)).

Definition emit (ev : IOEvent) : M unit :=
  fun st => (Returned tt, MkState st.(self) (st.(io) ++ [ev])).

(** [await self._connect_lock.acquire()] on a lock that exists. *)
Definition acquire : M unit :=
  fun st =>
    match st.(self).(_connect_lock) with
    | Some (MkLock false) =>
        (Returned tt, MkState (set_connect_lock (Some (MkLock true)) st.(self)) st.(io))
    | _ => (Blocked, st)
    end.

Definition lift_exn {A : Type} (r : Exn + A) : M A :=
  match r with inl e => raise e | inr a => ret a end.

Definition when (b : bool) (m : M unit) : M unit := if b then m else ret tt.

(** ** The methods *)

(** [close]. *)
Definition close : M unit :=
  s <- get_self ;;
  match s.(transport) with
  | Some t => when (negb t.(is_closing)) (emit (EvTransportClose t.(transport_id)))
  | None => ret tt
  end ;;;
  match s.(_connect_lock) with
  | Some l => when l.(locked) (modify (set_connect_lock (Some (MkLock false))))
  | None => ret tt
  end ;;;
  modify (set_protocol None) ;;;
  modify (set_transport None).

(** [_get_tls_context]. *)
Definition _get_tls_context (env : Env) : M SSLContext :=
  s <- get_self ;;
  match s.(tls_context) with
  | Some context => ret context
  | None =>
      let context :=
        {| check_hostname := s.(validate_certs);
           verify_mode := if s.(validate_certs) then CERT_REQUIRED else CERT_NONE;
           verify_locations := None;
           cert_chain := None |} in
      context <-
        match s.(cert_bundle) with
        | Some cafile =>
            emit (EvLoadVerifyLocations cafile) ;;;
            match env.(load_verify_locations) cafile with
            | Some e => raise (PyException e)
            | None =>
                ret {| check_hostname := context.(check_hostname);
                       verify_mode := context.(verify_mode);
                       verify_locations := Some cafile;
                       cert_chain := context.(cert_chain) |}
            end
        | None => ret context
        end ;;
      match s.(client_cert) with
      | Some certfile =>
          emit (EvLoadCertChain certfile s.(client_key)) ;;;
          match env.(load_cert_chain) certfile s.(client_key) with
          | Some e => raise (PyException e)
          | None =>
              ret {| check_hostname := context.(check_hostname);
                     verify_mode := context.(verify_mode);
                     verify_locations := context.(verify_locations);
                     cert_chain := Some (certfile, s.(client_key)) |}
          end
      | None => ret context
      end
  end.

(** The host-and-port branch of [_create_connection]'s target selection. *)
Definition connect_coro_host (s : SMTPConnection) (tls_context : option SSLContext)
    (ssl_handshake_timeout : option Q) : M ConnectCoro :=
  match s.(hostname), s.(port) with
  | None, _ =>
      raise (RuntimeError "No hostname provided; default should have been set")
  | Some _, None =>
      raise (RuntimeError "No port provided; default should have been set")
  | Some host, Some p =>
      ret (create_connection_host host p tls_context ssl_handshake_timeout
             s.(source_address))
  end.

(** The coroutine [_create_connection] builds: [if self.sock] (a socket
    object is always true), [elif self.socket_path] (a non-empty path),
    otherwise host and port. *)
Definition connect_coro (s : SMTPConnection) (tls_context : option SSLContext)
    (ssl_handshake_timeout : option Q) : M ConnectCoro :=
  match s.(sock), s.(socket_path) with
  | Some sk, _ =>
      ret (create_connection_sock sk tls_context ssl_handshake_timeout)
  | None, Some path =>
      if truthy_path path then
        ret (create_unix_connection path tls_context ssl_handshake_timeout)
      else connect_coro_host s tls_context ssl_handshake_timeout
  | None, None => connect_coro_host s tls_context ssl_handshake_timeout
  end.

(** [_create_connection]. *)
Definition _create_connection (env : Env) : M SMTPResponse :=
  s <- get_self ;;
  match s.(loop) with
  | None => raise (RuntimeError "No event loop set")
  | Some lp =>
      let protocol := MkSMTPProtocol lp in
      tls <-
        (if s.(use_tls) then
           context <- _get_tls_context env ;;
           ret (Some context, s.(timeout))
         else ret (None, None)) ;;
      coro <- connect_coro s (fst tls) (snd tls) ;;
      emit (EvWaitForConnection coro s.(timeout)) ;;;
      transport <-
        match env.(wait_for_connection) coro s.(timeout) with
        | inr transport => ret transport
        | inl exc =>
            if exc.(exc_is_OSError) then
              raise (SMTPConnectError
                       (MsgErrorConnecting s.(hostname) s.(port) exc.(exc_str))
                       (Some (PyException exc)))
            else if exc.(exc_is_asyncio_TimeoutError) then
              raise (SMTPConnectTimeoutError
                       (MsgTimedOutConnecting s.(hostname) s.(port))
                       (Some (PyException exc)))
            else raise (PyException exc)
        end ;;
      modify (set_protocol (Some protocol)) ;;;
      modify (set_transport (Some transport)) ;;;
      emit (EvReadResponse s.(timeout)) ;;;
      response <-
        match env.(protocol_read_response) s.(timeout) with
        | inr response => ret response
        | inl (SMTPServerDisconnected msg) =>
            raise (SMTPConnectError
                     (MsgErrorConnecting s.(hostname) s.(port) msg)
                     (Some (SMTPServerDisconnected msg)))
        | inl (SMTPTimeoutError msg) =>
            raise (SMTPConnectTimeoutError MsgTimedOutWaitingReady
                     (Some (SMTPTimeoutError msg)))
        | inl exc => raise exc
        end ;;
      if negb (response.(code) =? SMTPStatus_ready)%Z then
        raise (SMTPConnectError (MsgResponse response) None)
      else ret response
  end.

(** [_post_connect]: the hook, empty in this class. *)
Definition _post_connect : M unit := ret tt.

(** The default port, set after the lock is taken. *)
Definition set_default_port (s : SMTPConnection) : SMTPConnection :=
  match s.(port), s.(sock), s.(socket_path) with
  | None, None, None =>
      if s.(use_tls) then set_port (Some SMTP_TLS_PORT) s
      else if truthy_opt_bool s.(_start_tls_on_connect) then
        set_port (Some SMTP_STARTTLS_PORT) s
      else set_port (Some SMTP_PORT) s
  | _, _, _ => s
  end.

(** [connect]. *)
Definition connect (env : Env) (kw : Kwargs) : M SMTPResponse :=
  modify (_update_settings_from_kwargs kw) ;;;
  s <- get_self ;;
  match _validate_config s with
  | Some e => raise e
  | None =>
      modify (set_loop (Some env.(get_running_loop))) ;;;
      when (negb (is_not_None s.(_connect_lock)))
           (modify (set_connect_lock (Some (MkLock false)))) ;;;
      acquire ;;;
      modify set_default_port ;;;
      response <-
        try_except (_create_connection env)
                   (fun exc => close ;;; raise exc) ;;
      _post_connect ;;;
      ret response
  end.

(** The future handed to [_connection_lost]. *)
Record Waiter : Type := MkWaiter {
  cancelled : bool;
  exception : option PyExc
}.

(** [_connection_lost], the engine's callback. *)
Definition _connection_lost (waiter : Waiter) : M unit :=
  when (waiter.(cancelled) || is_not_None waiter.(exception)) close.

(** [execute_command].  What the engine does to the instance through its
    [connection_lost] callback while the command is awaited is not part of
    this call: it is the step [_connection_lost], taken on its own. *)
Definition execute_command (env : Env) (args : list string)
    (timeout_arg : Default (option Q)) : M SMTPResponse :=
  s <- get_self ;;
  match s.(protocol) with
  | None => raise (SMTPServerDisconnected "Server not connected")
  | Some _ =>
      let command_timeout :=
        match timeout_arg with _default => s.(timeout) | Given t => t end in
      emit (EvExecuteCommand args command_timeout) ;;;
      response <-
        lift_exn (env.(protocol_execute_command) args command_timeout) ;;
      when (response.(code) =? SMTPStatus_domain_unavailable)%Z close ;;;
      ret response
  end.

(** [get_transport_info]. *)
Definition get_transport_info (env : Env) (key : string) : M (option string) :=
  s <- get_self ;;
  match s.(transport) with
  | None => raise (SMTPServerDisconnected "Server not connected")
  | Some t => ret (env.(get_extra_info) t key)
  end.

(** [local_hostname], the property: the stored name, or the result of
    [socket.getfqdn()], which it then stores. *)
Definition local_hostname (getfqdn : string) : M string :=
  s <- get_self ;;
  match s.(_local_hostname) with
  | None => modify (set_local_hostname (Some getfqdn)) ;;; ret getfqdn
  | Some name => ret name
  end.

(** ** States of the lifecycle *)


Definition Disconnected (s : SMTPConnection) : Prop :=
  s.(protocol) = None /\ s.(transport) = None.

(** The connect lock is held. *)
Definition lock_held (s : SMTPConnection) : bool :=
  match s.(_connect_lock) with
  | Some l => l.(locked)
  | None => false
  end.

(** * Vocabulary of the properties *)

(** The value a field holds after [if x is not _default: self.f = x]. *)
Definition merged {A : Type} (x : Default A) (old : A) : A :=
  match x with _default => old | Given v => v end.

(** The value a field holds after [if x is not None: self.f = x]. *)
Definition merged_opt {A : Type} (x : option A) (old : A) : A :=
  match x with None => old | Some v => v end.

(** What the merge stores as the source address: a value given as a string
    is not stored there. *)
Definition merged_source_address (x : Default (option SourceAddress))
    (old : option SourceAddress) : option SourceAddress :=
  match x with
  | _default => old
  | Given (Some (SrcStr _)) => old
  | Given v => v
  end.

(** What the merge stores as the local hostname: [local_hostname] if given,
    then overwritten by a [source_address] given as a string. *)
Definition merged_local_hostname (lh : Default (option string))
    (sa : Default (option SourceAddress)) (old : option string) : option string :=
  match sa with
  | Given (Some (SrcStr str)) => Some str
  | _ => merged lh old
  end.

(** The merge as the design words it: every field takes the value given for
    it and keeps its own otherwise, with no exception. *)
Definition merge_overwrites_named_only (kw : Kwargs) (s : SMTPConnection) : Prop :=
  let s' := _update_settings_from_kwargs kw s in
  s'.(hostname) = merged kw.(kw_hostname) s.(hostname)
  /\ s'.(port) = merged kw.(kw_port) s.(port)
  /\ s'.(_login_username) = merged kw.(kw_username) s.(_login_username)
  /\ s'.(_login_password) = merged kw.(kw_password) s.(_login_password)
  /\ s'.(timeout) = merged kw.(kw_timeout) s.(timeout)
  /\ s'.(use_tls) = merged_opt kw.(kw_use_tls) s.(use_tls)
  /\ s'.(_start_tls_on_connect) = merged kw.(kw_start_tls) s.(_start_tls_on_connect)
  /\ s'.(validate_certs) = merged_opt kw.(kw_validate_certs) s.(validate_certs)
  /\ s'.(client_cert) = merged kw.(kw_client_cert) s.(client_cert)
  /\ s'.(client_key) = merged kw.(kw_client_key) s.(client_key)
  /\ s'.(tls_context) = merged kw.(kw_tls_context) s.(tls_context)
  /\ s'.(cert_bundle) = merged kw.(kw_cert_bundle) s.(cert_bundle)
  /\ s'.(socket_path) = merged kw.(kw_socket_path) s.(socket_path)
  /\ s'.(sock) = merged kw.(kw_sock) s.(sock)
  /\ s'.(source_address) = merged kw.(kw_source_address) s.(source_address)
  /\ s'.(_local_hostname) = merged kw.(kw_local_hostname) s.(_local_hostname)
  /\ s'.(protocol) = s.(protocol)
  /\ s'.(transport) = s.(transport)
  /\ s'.(loop) = s.(loop)
  /\ s'.(_connect_lock) = s.(_connect_lock).

(** The invariants of the data model as the design words them, a value being
    set when it is not [None]: the configuration violates one of them. *)
Definition violates_invariant (s : SMTPConnection) : bool :=
  (truthy_opt_bool s.(_start_tls_on_connect) && s.(use_tls))
  || (is_not_None s.(tls_context) && is_not_None s.(client_cert))
  || (is_not_None s.(sock)
      && (is_not_None s.(hostname) || is_not_None s.(port)
          || is_not_None s.(socket_path)))
  || (is_not_None s.(socket_path)
      && (is_not_None s.(hostname) || is_not_None s.(port)))
  || has_newline s.(_local_hostname)
  || has_newline s.(hostname).

(** The same conditions with the tests the code applies: a hostname, port or
    socket path standing next to a socket (and a hostname or port standing
    next to a socket path) counts only when it is non-empty, respectively
    non-zero. *)
Definition rejected (s : SMTPConnection) : bool :=
  (truthy_opt_bool s.(_start_tls_on_connect) && s.(use_tls))
  || (is_not_None s.(tls_context) && is_not_None s.(client_cert))
  || (is_not_None s.(sock)
      && (truthy_opt_str s.(hostname) || truthy_opt_int s.(port)
          || truthy_opt_path s.(socket_path)))
  || (is_not_None s.(socket_path)
      && (truthy_opt_str s.(hostname) || truthy_opt_int s.(port)))
  || has_newline s.(_local_hostname)
  || has_newline s.(hostname).

(** The lock after [close]: released if it was held. *)
Definition released (s : SMTPConnection) : SMTPConnection :=
  match s.(_connect_lock) with
  | Some (MkLock true) => set_connect_lock (Some (MkLock false)) s
  | _ => s
  end.

(** The log after [close]: one [EvTransportClose] if a transport was bound
    and not yet closing. *)
Definition log_after_close (s : SMTPConnection) (l : list IOEvent) : list IOEvent :=
  match s.(transport) with
  | Some (MkTransport id false) => l ++ [EvTransportClose id]
  | _ => l
  end.

(** How far a state is from another one that the same call started in: the
    instance differs at most in [protocol] and [transport], and the log has
    only grown. *)
Definition rebound (st st' : State) : Prop :=
  (st'.(self) = st.(self)
   \/ exists p t, st'.(self) = set_transport (Some t) (set_protocol (Some p) st.(self)))
  /\ exists evs, st'.(io) = st.(io) ++ evs.

(** The instance when [connect] reaches the lock: settings merged, loop
    recorded, lock created if there was none. *)
Definition prepared (env : Env) (kw : Kwargs) (s : SMTPConnection) : SMTPConnection :=
  let m := set_loop (Some env.(get_running_loop)) (_update_settings_from_kwargs kw s) in
  if is_not_None m.(_connect_lock) then m
  else set_connect_lock (Some (MkLock false)) m.

(** The instance when [connect] enters its [try]: lock taken, port
    defaulted. *)
Definition entered (env : Env) (kw : Kwargs) (s : SMTPConnection) : SMTPConnection :=
  set_default_port (set_connect_lock (Some (MkLock true)) (prepared env kw s)).

(** [connect] raised a [ValueError] and performed no I/O. *)
Definition refused_before_io (res : Outcome SMTPResponse * State) (st : State) : Prop :=
  exists msg, fst res = Raised (ValueError msg) /\ (snd res).(io) = st.(io).

(** The texts of the four [ValueError]s about options that exclude each
    other. *)
Definition mutual_exclusion_messages : list string :=
  [ "The start_tls and use_tls options are not compatible.";
    "Either a TLS context or a certificate/key must be provided";
    "The socket option is not compatible with hostname, port or socket_path";
    "The socket_path option is not compatible with hostname/port" ].

(** The port [connect] settles on for a merged configuration. *)
Definition port_after_connect (m : SMTPConnection) : option Z :=
  match m.(port), m.(sock), m.(socket_path) with
  | None, None, None =>
      if m.(use_tls) then Some 465
      else if truthy_opt_bool m.(_start_tls_on_connect) then Some 587
      else Some 25
  | p, _, _ => p
  end.

(** The timeout [execute_command] passes on. *)
Definition command_timeout (timeout_arg : Default (option Q)) (s : SMTPConnection)
    : option Q :=
  match timeout_arg with _default => s.(timeout) | Given t => t end.

(** The state once the command has gone to the engine. *)
Definition command_sent (args : list string) (timeout_arg : Default (option Q))
    (st : State) : State :=
  MkState st.(self)
    (st.(io) ++ [EvExecuteCommand args (command_timeout timeout_arg st.(self))]).

Definition is_Blocked {A : Type} (o : Outcome A) : bool :=
  match o with Blocked => true | _ => false end.

(** What the open and the greeting read make of the environment's answers,
    for the coroutine awaited: the exception handlers of
    [_create_connection], in the order they are written. *)
Definition handshake_outcome (env : Env) (s : SMTPConnection) (coro : ConnectCoro)
    : Outcome SMTPResponse :=
  match env.(wait_for_connection) coro s.(timeout) with
  | inl exc =>
      if exc.(exc_is_OSError) then
        Raised (SMTPConnectError
                  (MsgErrorConnecting s.(hostname) s.(port) exc.(exc_str))
                  (Some (PyException exc)))
      else if exc.(exc_is_asyncio_TimeoutError) then
        Raised (SMTPConnectTimeoutError
                  (MsgTimedOutConnecting s.(hostname) s.(port))
                  (Some (PyException exc)))
      else Raised (PyException exc)
  | inr _ =>
      match env.(protocol_read_response) s.(timeout) with
      | inl (SMTPServerDisconnected msg) =>
          Raised (SMTPConnectError
                    (MsgErrorConnecting s.(hostname) s.(port) msg)
                    (Some (SMTPServerDisconnected msg)))
      | inl (SMTPTimeoutError msg) =>
          Raised (SMTPConnectTimeoutError MsgTimedOutWaitingReady
                    (Some (SMTPTimeoutError msg)))
      | inl exc => Raised exc
      | inr response =>
          if (response.(code) =? SMTPStatus_ready)%Z then Returned response
          else Raised (SMTPConnectError (MsgResponse response) None)
      end
  end.

(** Two instances hold the same settings, the port apart: every attribute
    the merge can assign, except [port], which [connect] may default. *)
Definition same_settings (s s' : SMTPConnection) : Prop :=
  s'.(hostname) = s.(hostname)
  /\ s'.(_login_username) = s.(_login_username)
  /\ s'.(_login_password) = s.(_login_password)
  /\ s'.(_local_hostname) = s.(_local_hostname)
  /\ s'.(timeout) = s.(timeout)
  /\ s'.(use_tls) = s.(use_tls)
  /\ s'.(_start_tls_on_connect) = s.(_start_tls_on_connect)
  /\ s'.(validate_certs) = s.(validate_certs)
  /\ s'.(client_cert) = s.(client_cert)
  /\ s'.(client_key) = s.(client_key)
  /\ s'.(tls_context) = s.(tls_context)
  /\ s'.(cert_bundle) = s.(cert_bundle)
  /\ s'.(socket_path) = s.(socket_path)
  /\ s'.(sock) = s.(sock)
  /\ s'.(source_address) = s.(source_address).

(** The TLS arguments [_create_connection] hands to the loop, against the
    instance: none without [use_tls]; with it, a context (the stored one if
    there is one) and the connect timeout as handshake timeout. *)
Definition tls_arguments (s : SMTPConnection) (ssl : option SSLContext)
    (ssl_handshake_timeout : option Q) : Prop :=
  if s.(use_tls) then
    ssl_handshake_timeout = s.(timeout)
    /\ match s.(tls_context) with
       | Some context => ssl = Some context
       | None =>
           exists built,
             ssl = Some built
             /\ built.(check_hostname) = s.(validate_certs)
             /\ built.(verify_mode)
                = (if s.(validate_certs) then CERT_REQUIRED else CERT_NONE)
             /\ built.(verify_locations) = s.(cert_bundle)
             /\ built.(cert_chain)
                = match s.(client_cert) with
                  | Some certfile => Some (certfile, s.(client_key))
                  | None => None
                  end
       end
  else ssl = None /\ ssl_handshake_timeout = None.

(** The TLS arguments of a coroutine: [ssl] and [ssl_handshake_timeout]. *)
Definition coro_ssl (coro : ConnectCoro) : option SSLContext * option Q :=
  match coro with
  | create_connection_sock _ ssl hto => (ssl, hto)
  | create_unix_connection _ ssl hto => (ssl, hto)
  | create_connection_host _ _ ssl hto _ => (ssl, hto)
  end.

(** The target of a coroutine, against the instance: the socket if one is
    set; else the socket path if it is non-empty; else host and port, bound
    to the source address. *)
Definition targets (s : SMTPConnection) (coro : ConnectCoro) : Prop :=
  match coro with
  | create_connection_sock sk _ _ => s.(sock) = Some sk
  | create_unix_connection path _ _ =>
      s.(sock) = None /\ s.(socket_path) = Some path /\ truthy_path path = true
  | create_connection_host host p _ _ local_addr =>
      s.(sock) = None /\ truthy_opt_path s.(socket_path) = false
      /\ s.(hostname) = Some host /\ s.(port) = Some p
      /\ local_addr = s.(source_address)
  end.

(** What [_create_connection] has bound when it ends, by the answer to the
    open. *)
Definition bound_after_open (env : Env) (s s' : SMTPConnection)
    (coro : ConnectCoro) : Prop :=
  match env.(wait_for_connection) coro s.(timeout), s.(loop) with
  | inr tr, Some lp =>
      s' = set_transport (Some tr) (set_protocol (Some (MkSMTPProtocol lp)) s)
  | inr _, None => False
  | inl _, _ => s' = s
  end.

(** Loading the TLS material of a configuration fails with [exc]: there is
    no stored context, and either the certificate bundle does not load, or it
    loads (or there is none) and the client certificate does not. *)
Definition tls_load_fails (env : Env) (s : SMTPConnection) (exc : PyExc) : Prop :=
  s.(tls_context) = None
  /\ match s.(cert_bundle) with
     | Some cafile =>
         env.(load_verify_locations) cafile = Some exc
         \/ (env.(load_verify_locations) cafile = None
             /\ exists certfile,
                  s.(client_cert) = Some certfile
                  /\ env.(load_cert_chain) certfile s.(client_key) = Some exc)
     | None =>
         exists certfile,
           s.(client_cert) = Some certfile
           /\ env.(load_cert_chain) certfile s.(client_key) = Some exc
     end.

(** The event is the reading of a certificate file. *)
Definition is_load_event (ev : IOEvent) : bool :=
  match ev with
  | EvLoadVerifyLocations _ | EvLoadCertChain _ _ => true
  | _ => false
  end.

(** A merged configuration names nothing to connect to, with the text of
    the [RuntimeError] that [_create_connection] then raises: no socket, no
    non-empty socket path, and no hostname, or a hostname and no port once
    [connect] has had the chance to default it. *)
Definition missing_target (m : SMTPConnection) : option string :=
  if is_not_None m.(sock) || truthy_opt_path m.(socket_path) then None
  else
    match m.(hostname), port_after_connect m with
    | None, _ => Some "No hostname provided; default should have been set"
    | Some _, None => Some "No port provided; default should have been set"
    | Some _, Some _ => None
    end.

(** * Scenarios: calls and servers the properties are tried on *)

(** [connect(source_address="mail.example.org")] on a fresh instance. *)
Definition kw_source_address_str : Kwargs :=
  {| kw_hostname := _default; kw_port := _default; kw_username := _default;
     kw_password := _default; kw_local_hostname := _default;
     kw_source_address := Given (Some (SrcStr "mail.example.org"));
     kw_timeout := _default; kw_use_tls := None; kw_start_tls := _default;
     kw_validate_certs := None; kw_client_cert := _default;
     kw_client_key := _default; kw_tls_context := _default;
     kw_cert_bundle := _default; kw_socket_path := _default;
     kw_sock := _default |}.

(** [SMTP(hostname="", sock=sock)]: an empty hostname next to a socket. *)
Definition args_sock_empty_hostname : InitArgs :=
  {| arg_hostname := Some ""; arg_port := None; arg_username := None;
     arg_password := None; arg_local_hostname := None;
     arg_source_address := None; arg_timeout := Some DEFAULT_TIMEOUT;
     arg_use_tls := false; arg_start_tls := None; arg_validate_certs := true;
     arg_client_cert := None; arg_client_key := None; arg_tls_context := None;
     arg_cert_bundle := None; arg_socket_path := None;
     arg_sock := Some (MkSocket 3) |}.

(** [SMTP(hostname=None, port=0, socket_path="/var/run/smtp.sock")]: port
    zero next to a socket path. *)
Definition args_socket_path_port_zero : InitArgs :=
  {| arg_hostname := None; arg_port := Some 0; arg_username := None;
     arg_password := None; arg_local_hostname := None;
     arg_source_address := None; arg_timeout := Some DEFAULT_TIMEOUT;
     arg_use_tls := false; arg_start_tls := None; arg_validate_certs := true;
     arg_client_cert := None; arg_client_key := None; arg_tls_context := None;
     arg_cert_bundle := None;
     arg_socket_path := Some (PathStr "/var/run/smtp.sock");
     arg_sock := None |}.

(** The test suite's call: [connect(hostname=None, port=None, sock=sock)]. *)
Definition kw_via_socket : Kwargs :=
  {| kw_hostname := Given None; kw_port := Given None; kw_username := _default;
     kw_password := _default; kw_local_hostname := _default;
     kw_source_address := _default; kw_timeout := _default; kw_use_tls := None;
     kw_start_tls := _default; kw_validate_certs := None;
     kw_client_cert := _default; kw_client_key := _default;
     kw_tls_context := _default; kw_cert_bundle := _default;
     kw_socket_path := _default; kw_sock := Given (Some (MkSocket 3)) |}.

(** [connect(sock=sock)], the hostname left alone. *)
Definition kw_socket_only : Kwargs :=
  {| kw_hostname := _default; kw_port := _default; kw_username := _default;
     kw_password := _default; kw_local_hostname := _default;
     kw_source_address := _default; kw_timeout := _default; kw_use_tls := None;
     kw_start_tls := _default; kw_validate_certs := None;
     kw_client_cert := _default; kw_client_key := _default;
     kw_tls_context := _default; kw_cert_bundle := _default;
     kw_socket_path := _default; kw_sock := Given (Some (MkSocket 3)) |}.

(** [SMTP(sock=sock)]. *)
Definition args_socket_only : InitArgs :=
  {| arg_hostname := Some "localhost"; arg_port := None; arg_username := None;
     arg_password := None; arg_local_hostname := None;
     arg_source_address := None; arg_timeout := Some DEFAULT_TIMEOUT;
     arg_use_tls := false; arg_start_tls := None; arg_validate_certs := true;
     arg_client_cert := None; arg_client_key := None; arg_tls_context := None;
     arg_cert_bundle := None; arg_socket_path := None;
     arg_sock := Some (MkSocket 3) |}.

(** A server that greets with 220 and answers every command with 250. *)
Definition env_ready : Env :=
  {| get_running_loop := MkEventLoop 1;
     load_verify_locations := fun _ => None;
     load_cert_chain := fun _ _ => None;
     wait_for_connection := fun _ _ => inr (MkTransport 7 false);
     protocol_read_response := fun _ => inr (MkSMTPResponse 220 "mail.example.org ESMTP");
     protocol_execute_command := fun _ _ => inr (MkSMTPResponse 250 "OK");
     get_extra_info := fun _ _ => None |}.

(** [SMTP()] before its first [connect]. *)
Definition fresh : State := MkState (init_fields default_args) [].

(** [connect(use_tls=True)]. *)
Definition kw_direct_tls : Kwargs :=
  {| kw_hostname := _default; kw_port := _default; kw_username := _default;
     kw_password := _default; kw_local_hostname := _default;
     kw_source_address := _default; kw_timeout := _default;
     kw_use_tls := Some true; kw_start_tls := _default;
     kw_validate_certs := None; kw_client_cert := _default;
     kw_client_key := _default; kw_tls_context := _default;
     kw_cert_bundle := _default; kw_socket_path := _default;
     kw_sock := _default |}.

(** [connect(start_tls=True)]. *)
Definition kw_upgrade_tls : Kwargs :=
  {| kw_hostname := _default; kw_port := _default; kw_username := _default;
     kw_password := _default; kw_local_hostname := _default;
     kw_source_address := _default; kw_timeout := _default;
     kw_use_tls := None; kw_start_tls := Given (Some true);
     kw_validate_certs := None; kw_client_cert := _default;
     kw_client_key := _default; kw_tls_context := _default;
     kw_cert_bundle := _default; kw_socket_path := _default;
     kw_sock := _default |}.

(** A server that answers every command with 421. *)
Definition env_shutting_down : Env :=
  {| get_running_loop := MkEventLoop 1;
     load_verify_locations := fun _ => None;
     load_cert_chain := fun _ _ => None;
     wait_for_connection := fun _ _ => inr (MkTransport 7 false);
     protocol_read_response := fun _ => inr (MkSMTPResponse 220 "mail.example.org ESMTP");
     protocol_execute_command := fun _ _ => inr (MkSMTPResponse 421 "shutting down");
     get_extra_info := fun _ _ => None |}.

(** The instance after a successful [connect()]. *)
Definition connected : State := snd (connect env_ready no_kwargs fresh).

(** A server that is not listening: the open fails with
    [ConnectionRefusedError]. *)
Definition env_refused : Env :=
  {| get_running_loop := MkEventLoop 1;
     load_verify_locations := fun _ => None;
     load_cert_chain := fun _ _ => None;
     wait_for_connection := fun _ _ =>
       inl (MkPyExc true false "[Errno 111] Connection refused");
     protocol_read_response := fun _ => inr (MkSMTPResponse 220 "mail.example.org ESMTP");
     protocol_execute_command := fun _ _ => inr (MkSMTPResponse 250 "OK");
     get_extra_info := fun _ _ => None |}.

(** A host that does not answer: the open expires. *)
Definition env_open_timeout : Env :=
  {| get_running_loop := MkEventLoop 1;
     load_verify_locations := fun _ => None;
     load_cert_chain := fun _ _ => None;
     wait_for_connection := fun _ _ => inl (MkPyExc false true "");
     protocol_read_response := fun _ => inr (MkSMTPResponse 220 "mail.example.org ESMTP");
     protocol_execute_command := fun _ _ => inr (MkSMTPResponse 250 "OK");
     get_extra_info := fun _ _ => None |}.

(** A server that accepts the connection and hangs up before greeting. *)
Definition env_greeting_eof : Env :=
  {| get_running_loop := MkEventLoop 1;
     load_verify_locations := fun _ => None;
     load_cert_chain := fun _ _ => None;
     wait_for_connection := fun _ _ => inr (MkTransport 7 false);
     protocol_read_response := fun _ =>
       inl (SMTPServerDisconnected "Connection lost");
     protocol_execute_command := fun _ _ => inr (MkSMTPResponse 250 "OK");
     get_extra_info := fun _ _ => None |}.

(** A server that accepts the connection and never greets. *)
Definition env_greeting_timeout : Env :=
  {| get_running_loop := MkEventLoop 1;
     load_verify_locations := fun _ => None;
     load_cert_chain := fun _ _ => None;
     wait_for_connection := fun _ _ => inr (MkTransport 7 false);
     protocol_read_response := fun _ =>
       inl (SMTPTimeoutError "Timed out waiting for server response");
     protocol_execute_command := fun _ _ => inr (MkSMTPResponse 250 "OK");
     get_extra_info := fun _ _ => None |}.

(** A server that greets with 421, as in the test suite. *)
Definition env_greeting_421 : Env :=
  {| get_running_loop := MkEventLoop 1;
     load_verify_locations := fun _ => None;
     load_cert_chain := fun _ _ => None;
     wait_for_connection := fun _ _ => inr (MkTransport 7 false);
     protocol_read_response := fun _ =>
       inr (MkSMTPResponse 421 "retry in 5 minutes");
     protocol_execute_command := fun _ _ => inr (MkSMTPResponse 250 "OK");
     get_extra_info := fun _ _ => None |}.

(** What [connect()] on a fresh instance asks the loop to open. *)
Definition coro_localhost : ConnectCoro :=
  create_connection_host "localhost" 25 None None None.

(** [SMTP(use_tls=True, start_tls=True)]. *)
Definition args_both_tls : InitArgs :=
  {| arg_hostname := Some "localhost"; arg_port := None; arg_username := None;
     arg_password := None; arg_local_hostname := None;
     arg_source_address := None; arg_timeout := Some DEFAULT_TIMEOUT;
     arg_use_tls := true; arg_start_tls := Some true;
     arg_validate_certs := true; arg_client_cert := None;
     arg_client_key := None; arg_tls_context := None; arg_cert_bundle := None;
     arg_socket_path := None; arg_sock := None |}.

(** [connect(hostname="mail.example.org\r\nQUIT")]. *)
Definition kw_hostname_injection : Kwargs :=
  {| kw_hostname :=
       Given (Some (String.append "mail.example.org" (String CR (String LF "QUIT"))));
     kw_port := _default; kw_username := _default; kw_password := _default;
     kw_local_hostname := _default; kw_source_address := _default;
     kw_timeout := _default; kw_use_tls := None; kw_start_tls := _default;
     kw_validate_certs := None; kw_client_cert := _default;
     kw_client_key := _default; kw_tls_context := _default;
     kw_cert_bundle := _default; kw_socket_path := _default;
     kw_sock := _default |}.

(** [connect(hostname=None)]: no target left. *)
Definition kw_no_hostname : Kwargs :=
  {| kw_hostname := Given None; kw_port := _default; kw_username := _default;
     kw_password := _default; kw_local_hostname := _default;
     kw_source_address := _default; kw_timeout := _default; kw_use_tls := None;
     kw_start_tls := _default; kw_validate_certs := None;
     kw_client_cert := _default; kw_client_key := _default;
     kw_tls_context := _default; kw_cert_bundle := _default;
     kw_socket_path := _default; kw_sock := _default |}.

(** [connect(use_tls=True, cert_bundle="/etc/ssl/missing.pem")]. *)
Definition kw_tls_with_bundle : Kwargs :=
  {| kw_hostname := _default; kw_port := _default; kw_username := _default;
     kw_password := _default; kw_local_hostname := _default;
     kw_source_address := _default; kw_timeout := _default;
     kw_use_tls := Some true; kw_start_tls := _default;
     kw_validate_certs := None; kw_client_cert := _default;
     kw_client_key := _default; kw_tls_context := _default;
     kw_cert_bundle := Given (Some "/etc/ssl/missing.pem");
     kw_socket_path := _default; kw_sock := _default |}.

(** The exception of a file that is not there. *)
Definition exc_file_not_found : PyExc :=
  MkPyExc true false "[Errno 2] No such file or directory".

(** A machine on which no certificate file can be read. *)
Definition env_no_certificates : Env :=
  {| get_running_loop := MkEventLoop 1;
     load_verify_locations := fun _ => Some exc_file_not_found;
     load_cert_chain := fun _ _ => Some exc_file_not_found;
     wait_for_connection := fun _ _ => inr (MkTransport 7 false);
     protocol_read_response := fun _ => inr (MkSMTPResponse 220 "mail.example.org ESMTP");
     protocol_execute_command := fun _ _ => inr (MkSMTPResponse 250 "OK");
     get_extra_info := fun _ _ => None |}.

(** What [connect(use_tls=True)] on a fresh instance asks the loop to open. *)
Definition coro_localhost_tls : ConnectCoro :=
  create_connection_host "localhost" 465
    (Some (MkSSLContext true CERT_REQUIRED None None))
    (Some DEFAULT_TIMEOUT) None.

(** What [connect(hostname=None, port=None, sock=sock)] asks the loop to
    open. *)
Definition coro_socket : ConnectCoro :=
  create_connection_sock (MkSocket 3) None None.

(** [SMTP(source_address="client.example.org")], the deprecated spelling. *)
Definition args_source_address_str : InitArgs :=
  {| arg_hostname := Some "localhost"; arg_port := None; arg_username := None;
     arg_password := None; arg_local_hostname := None;
     arg_source_address := Some (SrcStr "client.example.org");
     arg_timeout := Some DEFAULT_TIMEOUT; arg_use_tls := false;
     arg_start_tls := None; arg_validate_certs := true;
     arg_client_cert := None; arg_client_key := None; arg_tls_context := None;
     arg_cert_bundle := None; arg_socket_path := None; arg_sock := None |}.



(** The expiry [asyncio.wait_for] raises from Python 3.11 on:
    [asyncio.TimeoutError] is there the built-in [TimeoutError], a subclass
    of [OSError], whose text is empty. *)
Definition exc_timeout_py311 : PyExc := MkPyExc true true "".

(** A host that does not answer, on Python 3.11 or later. *)
Definition env_open_timeout_py311 : Env :=
  {| get_running_loop := MkEventLoop 1;
     load_verify_locations := fun _ => None;
     load_cert_chain := fun _ _ => None;
     wait_for_connection := fun _ _ => inl exc_timeout_py311;
     protocol_read_response := fun _ => inr (MkSMTPResponse 220 "mail.example.org ESMTP");
     protocol_execute_command := fun _ _ => inr (MkSMTPResponse 250 "OK");
     get_extra_info := fun _ _ => None |}.

(** [connect(hostname="", socket_path="")]: an empty socket path, which is
    not [None], next to an empty hostname. *)
Definition kw_empty_socket_path : Kwargs :=
  {| kw_hostname := Given (Some ""); kw_port := _default;
     kw_username := _default; kw_password := _default;
     kw_local_hostname := _default; kw_source_address := _default;
     kw_timeout := _default; kw_use_tls := None; kw_start_tls := _default;
     kw_validate_certs := None; kw_client_cert := _default;
     kw_client_key := _default; kw_tls_context := _default;
     kw_cert_bundle := _default;
     kw_socket_path := Given (Some (PathStr "")); kw_sock := _default |}.

(** [connect(hostname=None, use_tls=True)]. *)
Definition kw_tls_no_hostname : Kwargs :=
  {| kw_hostname := Given None; kw_port := _default; kw_username := _default;
     kw_password := _default; kw_local_hostname := _default;
     kw_source_address := _default; kw_timeout := _default;
     kw_use_tls := Some true; kw_start_tls := _default;
     kw_validate_certs := None; kw_client_cert := _default;
     kw_client_key := _default; kw_tls_context := _default;
     kw_cert_bundle := _default; kw_socket_path := _default;
     kw_sock := _default |}.

(** [connect(hostname=None, use_tls=True, cert_bundle="/etc/ssl/missing.pem")]. *)
Definition kw_tls_bundle_no_hostname : Kwargs :=
  {| kw_hostname := Given None; kw_port := _default; kw_username := _default;
     kw_password := _default; kw_local_hostname := _default;
     kw_source_address := _default; kw_timeout := _default;
     kw_use_tls := Some true; kw_start_tls := _default;
     kw_validate_certs := None; kw_client_cert := _default;
     kw_client_key := _default; kw_tls_context := _default;
     kw_cert_bundle := Given (Some "/etc/ssl/missing.pem");
     kw_socket_path := _default; kw_sock := _default |}.

(** * Properties *)

(** ** The settings merge *)

Section MergeFrame.
Variables (A B : Type).
Variable set : A -> SMTPConnection -> SMTPConnection.
Variable f : SMTPConnection -> B.
Hypothesis set_frame : forall v s, f (set v s) = f s.

Lemma frame_assign_if_given (x : Default A) (s : SMTPConnection) :
  f (assign_if_given x set s) = f s.
Proof. destruct x; simpl; auto. Qed.

Lemma frame_assign_if_not_None (x : option A) (s : SMTPConnection) :
  f (assign_if_not_None x set s) = f s.
Proof. destruct x; simpl; auto. Qed.
End MergeFrame.

Section MergeHit.
Variable A : Type.
Variable set : A -> SMTPConnection -> SMTPConnection.
Variable f : SMTPConnection -> A.
Hypothesis set_hit : forall v s, f (set v s) = v.

Lemma hit_assign_if_given (x : Default A) (s : SMTPConnection) :
  f (assign_if_given x set s) = merged x (f s).
Proof. destruct x; simpl; auto. Qed.

Lemma hit_assign_if_not_None (x : option A) (s : SMTPConnection) :
  f (assign_if_not_None x set s) = merged_opt x (f s).
Proof. destruct x; simpl; auto. Qed.
End MergeHit.

Lemma frame_assign_source_address (B : Type) (f : SMTPConnection -> B)
    (x : Default (option SourceAddress)) (s : SMTPConnection) :
  (forall v s, f (set_local_hostname v s) = f s) ->
  (forall v s, f (set_source_address v s) = f s) ->
  f (assign_source_address x s) = f s.
Proof.
  intros Hl Hs. destruct x as [|[[h p|str]|]]; simpl; auto.
Qed.

Ltac merge_frame :=
  unfold _update_settings_from_kwargs; cbv zeta;
  repeat first
    [ rewrite frame_assign_if_given by (intros; reflexivity)
    | rewrite frame_assign_if_not_None by (intros; reflexivity)
    | rewrite frame_assign_source_address by (intros; reflexivity)
    | rewrite hit_assign_if_given by (intros; reflexivity)
    | rewrite hit_assign_if_not_None by (intros; reflexivity) ];
  try reflexivity.

Lemma merge_hostname kw s :
  (_update_settings_from_kwargs kw s).(hostname) = merged kw.(kw_hostname) s.(hostname).
Proof. merge_frame. Qed.

Lemma merge_port kw s :
  (_update_settings_from_kwargs kw s).(port) = merged kw.(kw_port) s.(port).
Proof. merge_frame. Qed.

Lemma merge_login_username kw s :
  (_update_settings_from_kwargs kw s).(_login_username)
  = merged kw.(kw_username) s.(_login_username).
Proof. merge_frame. Qed.

Lemma merge_login_password kw s :
  (_update_settings_from_kwargs kw s).(_login_password)
  = merged kw.(kw_password) s.(_login_password).
Proof. merge_frame. Qed.

Lemma merge_timeout kw s :
  (_update_settings_from_kwargs kw s).(timeout) = merged kw.(kw_timeout) s.(timeout).
Proof. merge_frame. Qed.

Lemma merge_use_tls kw s :
  (_update_settings_from_kwargs kw s).(use_tls) = merged_opt kw.(kw_use_tls) s.(use_tls).
Proof. merge_frame. Qed.

Lemma merge_start_tls kw s :
  (_update_settings_from_kwargs kw s).(_start_tls_on_connect)
  = merged kw.(kw_start_tls) s.(_start_tls_on_connect).
Proof. merge_frame. Qed.

Lemma merge_validate_certs kw s :
  (_update_settings_from_kwargs kw s).(validate_certs)
  = merged_opt kw.(kw_validate_certs) s.(validate_certs).
Proof. merge_frame. Qed.

Lemma merge_client_cert kw s :
  (_update_settings_from_kwargs kw s).(client_cert)
  = merged kw.(kw_client_cert) s.(client_cert).
Proof. merge_frame. Qed.

Lemma merge_client_key kw s :
  (_update_settings_from_kwargs kw s).(client_key)
  = merged kw.(kw_client_key) s.(client_key).
Proof. merge_frame. Qed.

Lemma merge_tls_context kw s :
  (_update_settings_from_kwargs kw s).(tls_context)
  = merged kw.(kw_tls_context) s.(tls_context).
Proof. merge_frame. Qed.

Lemma merge_cert_bundle kw s :
  (_update_settings_from_kwargs kw s).(cert_bundle)
  = merged kw.(kw_cert_bundle) s.(cert_bundle).
Proof. merge_frame. Qed.

Lemma merge_socket_path kw s :
  (_update_settings_from_kwargs kw s).(socket_path)
  = merged kw.(kw_socket_path) s.(socket_path).
Proof. merge_frame. Qed.

Lemma merge_sock kw s :
  (_update_settings_from_kwargs kw s).(sock) = merged kw.(kw_sock) s.(sock).
Proof. merge_frame. Qed.

Lemma merge_source_address kw s :
  (_update_settings_from_kwargs kw s).(source_address)
  = merged_source_address kw.(kw_source_address) s.(source_address).
Proof.
  merge_frame.
  destruct (kw_source_address kw) as [|[[h p|str]|]]; simpl; merge_frame.
Qed.

Lemma merge_local_hostname kw s :
  (_update_settings_from_kwargs kw s).(_local_hostname)
  = merged_local_hostname kw.(kw_local_hostname) kw.(kw_source_address)
      s.(_local_hostname).
Proof.
  merge_frame.
  destruct (kw_source_address kw) as [|[[h p|str]|]]; simpl; merge_frame.
Qed.

Lemma merge_protocol kw s :
  (_update_settings_from_kwargs kw s).(protocol) = s.(protocol).
Proof. merge_frame. Qed.

Lemma merge_transport kw s :
  (_update_settings_from_kwargs kw s).(transport) = s.(transport).
Proof. merge_frame. Qed.

Lemma merge_loop kw s :
  (_update_settings_from_kwargs kw s).(loop) = s.(loop).
Proof. merge_frame. Qed.

Lemma merge_connect_lock kw s :
  (_update_settings_from_kwargs kw s).(_connect_lock) = s.(_connect_lock).
Proof. merge_frame. Qed.

(** C9, as stated, fails: a [source_address] given as a string is not stored
    as the source address, and the local hostname, which was not passed, is
    overwritten. *)
Lemma merge_source_address_str_counterexample :
  let s := init_fields default_args in
  let s' := _update_settings_from_kwargs kw_source_address_str s in
  (merge_overwrites_named_only kw_source_address_str s -> False)
  /\ s'.(source_address) = None
  /\ s'.(_local_hostname) = Some "mail.example.org"
  /\ s.(_local_hostname) = None.
Proof.
  cbv zeta. split; [| repeat split; reflexivity].
  unfold merge_overwrites_named_only. cbv zeta. intros H.
  decompose [and] H.
  match goal with
  | Hsa : source_address _ = _ |- _ => cbv in Hsa; discriminate Hsa
  end.
Qed.

(** A merge with nothing given changes nothing: what one call stored is what
    the next call finds. *)
Lemma update_settings_no_kwargs (s : SMTPConnection) :
  _update_settings_from_kwargs no_kwargs s = s.
Proof. destruct s; reflexivity. Qed.

(** ** Configuration validation *)

Lemma truthy_opt_str_set o : truthy_opt_str o = true -> is_not_None o = true.
Proof. destruct o; simpl; [reflexivity | discriminate]. Qed.

Lemma truthy_opt_int_set o : truthy_opt_int o = true -> is_not_None o = true.
Proof. destruct o; simpl; [reflexivity | discriminate]. Qed.

Lemma truthy_opt_path_set o : truthy_opt_path o = true -> is_not_None o = true.
Proof. destruct o; simpl; [reflexivity | discriminate]. Qed.

Lemma rejected_violates (s : SMTPConnection) :
  rejected s = true -> violates_invariant s = true.
Proof.
  unfold rejected, violates_invariant.
  rewrite !orb_true_iff, !andb_true_iff, !orb_true_iff.
  pose proof (truthy_opt_str_set (hostname s)).
  pose proof (truthy_opt_int_set (port s)).
  pose proof (truthy_opt_path_set (socket_path s)).
  tauto.
Qed.

Lemma validate_config_rejected (s : SMTPConnection) :
  rejected s = true ->
  exists msg, _validate_config s = Some (ValueError msg).
Proof.
  unfold rejected, _validate_config.
  destruct (truthy_opt_bool (_start_tls_on_connect s) && use_tls s);
    [intros _; eexists; reflexivity|].
  destruct (is_not_None (tls_context s) && is_not_None (client_cert s));
    [intros _; eexists; reflexivity|].
  destruct (is_not_None (sock s) && _); [intros _; eexists; reflexivity|].
  destruct (is_not_None (socket_path s) && _); [intros _; eexists; reflexivity|].
  destruct (has_newline (_local_hostname s)); [intros _; eexists; reflexivity|].
  destruct (has_newline (hostname s)); [intros _; eexists; reflexivity|].
  simpl. discriminate.
Qed.

Lemma validate_config_accepted (s : SMTPConnection) :
  rejected s = false -> _validate_config s = None.
Proof.
  unfold rejected, _validate_config.
  destruct (truthy_opt_bool (_start_tls_on_connect s) && use_tls s);
    [discriminate|].
  destruct (is_not_None (tls_context s) && is_not_None (client_cert s));
    [discriminate|].
  destruct (is_not_None (sock s) && _); [discriminate|].
  destruct (is_not_None (socket_path s) && _); [discriminate|].
  destruct (has_newline (_local_hostname s)); [discriminate|].
  destruct (has_newline (hostname s)); [discriminate|].
  reflexivity.
Qed.

Lemma validate_config_None_iff (s : SMTPConnection) :
  _validate_config s = None <-> rejected s = false.
Proof.
  split; [| apply validate_config_accepted].
  destruct (rejected s) eqn:E; [| reflexivity].
  destruct (validate_config_rejected s E) as [msg ->]. discriminate.
Qed.

(** ** Teardown *)

Lemma close_eq (st : State) :
  close st
  = (Returned tt,
     MkState (set_transport None (set_protocol None (released st.(self))))
             (log_after_close st.(self) st.(io))).
Proof.
  destruct st as [s l]. destruct s.
  destruct transport0 as [[id [|]]|], _connect_lock0 as [[[|]]|]; reflexivity.
Qed.

Ltac break_match :=
  match goal with
  | |- context [match ?x with _ => _ end] =>
      lazymatch x with
      | context [match _ with _ => _ end] => fail
      | _ => destruct x eqn:?
      end
  end.

Ltac solve_log :=
  simpl; first
    [ exists []; rewrite app_nil_r; reflexivity
    | eexists; rewrite <- ?app_assoc; reflexivity ].

Lemma create_connection_cases (env : Env) (st : State) :
  match _create_connection env st with
  | (Returned r, st') =>
      r.(code) = SMTPStatus_ready
      /\ env.(protocol_read_response) st.(self).(timeout) = inr r
      /\ (exists p t,
            st'.(self) = set_transport (Some t) (set_protocol (Some p) st.(self)))
      /\ exists evs, st'.(io) = st.(io) ++ evs
  | (Raised e, st') => rebound st st'
  | (Blocked, _) => False
  end.
Proof.
  destruct st as [s l].
  unfold _create_connection, _get_tls_context, connect_coro, connect_coro_host,
    rebound, bind, get_self, modify, emit, ret, raise; simpl.
  repeat (break_match; simpl in * );
    try solve [ split; [ (left; reflexivity) || (right; eauto) | solve_log ] ].
  all: match goal with
       | H : negb (_ =? _)%Z = false |- _ =>
           apply negb_false_iff, Z.eqb_eq in H
       end;
       repeat split; [assumption | eauto | solve_log].
Qed.

(** ** The connect handshake *)

Lemma connect_eq (env : Env) (kw : Kwargs) (st : State) :
  connect env kw st =
  let m := _update_settings_from_kwargs kw st.(self) in
  match _validate_config m with
  | Some e => (Raised e, MkState m st.(io))
  | None =>
      if lock_held m then (Blocked, MkState (prepared env kw st.(self)) st.(io))
      else
        match _create_connection env (MkState (entered env kw st.(self)) st.(io)) with
        | (Raised e, st') => (Raised e, snd (close st'))
        | other => other
        end
  end.
Proof.
  destruct st as [s l]. cbv zeta.
  unfold connect, entered, prepared, lock_held.
  generalize (_create_connection env) as cc. intros cc.
  unfold bind at 1. unfold modify at 1. cbn [self io].
  unfold bind at 1. unfold get_self at 1. cbn [self io].
  destruct (_validate_config (_update_settings_from_kwargs kw s)) as [e|];
    [reflexivity|].
  unfold bind, modify, when, acquire, try_except, _post_connect, ret, raise;
    cbn [self io].
  set (m := _update_settings_from_kwargs kw s).
  assert (Hl : _connect_lock (set_loop (Some (get_running_loop env)) m)
               = _connect_lock m) by reflexivity.
  rewrite Hl.
  destruct (_connect_lock m) as [[[|]]|] eqn:Elock;
    cbn -[close]; rewrite ?Elock; cbn -[close].
  - reflexivity.
  - match goal with
    | |- context [cc ?x] => destruct (cc x) as [[r|e|] st']
    end; try reflexivity.
    rewrite close_eq. reflexivity.
  - match goal with
    | |- context [cc ?x] => destruct (cc x) as [[r|e|] st']
    end; try reflexivity.
    rewrite close_eq. reflexivity.
Qed.

(** A [ValueError] out of [_create_connection] can only be one the engine
    raised while the greeting was read, after the transport was opened. *)
Lemma create_connection_ValueError_after_io (env : Env) (st : State) :
  match _create_connection env st with
  | (Raised (ValueError _), st') => exists ev evs, st'.(io) = st.(io) ++ ev :: evs
  | _ => True
  end.
Proof.
  destruct st as [s l].
  unfold _create_connection, _get_tls_context, connect_coro, connect_coro_host,
    bind, get_self, modify, emit, ret, raise; simpl.
  repeat (break_match; simpl in * ); try exact I;
    do 2 eexists; rewrite <- ?app_assoc; simpl; reflexivity.
Qed.

Lemma app_cons_neq (A : Type) (l : list A) (x : A) (l' : list A) :
  l ++ x :: l' <> l.
Proof.
  intros H. apply (f_equal (@List.length A)) in H.
  rewrite List.length_app in H. simpl in H. lia.
Qed.

Lemma log_after_close_extends (s : SMTPConnection) (l : list IOEvent) :
  exists evs, log_after_close s l = l ++ evs.
Proof.
  unfold log_after_close. destruct (transport s) as [[id [|]]|].
  - exists []. now rewrite app_nil_r.
  - eexists. reflexivity.
  - exists []. now rewrite app_nil_r.
Qed.

Lemma connect_refused_iff (env : Env) (kw : Kwargs) (st : State) :
  refused_before_io (connect env kw st) st
  <-> rejected (_update_settings_from_kwargs kw st.(self)) = true.
Proof.
  rewrite connect_eq. cbv zeta.
  set (m := _update_settings_from_kwargs kw (self st)).
  split.
  - intros [msg [Ho Hio]].
    destruct (rejected m) eqn:Erej; [reflexivity|].
    rewrite (validate_config_accepted m Erej) in Ho, Hio.
    destruct (lock_held m); [discriminate Ho|].
    pose proof (create_connection_ValueError_after_io env
                  (MkState (entered env kw (self st)) (io st))) as Hv.
    destruct (_create_connection env _) as [[r|e|] st']; try discriminate Ho.
    simpl in Ho, Hio. inversion Ho; subst e.
    destruct Hv as [ev [evs Hv]]. simpl in Hv.
    rewrite close_eq in Hio. simpl in Hio.
    destruct (log_after_close_extends (self st') (io st')) as [more Hmore].
    rewrite Hmore, Hv, <- app_assoc in Hio. simpl in Hio.
    exfalso. revert Hio. apply app_cons_neq.
  - intros Hrej. destruct (validate_config_rejected m Hrej) as [msg ->].
    exists msg. split; reflexivity.
Qed.

(** C6, as stated, fails: a socket together with a hostname that is set but
    empty, and a socket path together with a port that is set but zero,
    violate the invariant of the data model and are accepted. *)
Lemma validate_config_accepts_empty_counterexample :
  violates_invariant (init_fields args_sock_empty_hostname) = true
  /\ _validate_config (init_fields args_sock_empty_hostname) = None
  /\ __init__ args_sock_empty_hostname = inr (init_fields args_sock_empty_hostname)
  /\ violates_invariant (init_fields args_socket_path_port_zero) = true
  /\ _validate_config (init_fields args_socket_path_port_zero) = None
  /\ __init__ args_socket_path_port_zero
     = inr (init_fields args_socket_path_port_zero).
Proof. repeat split; reflexivity. Qed.

(** C6 (amended): validation raises [ValueError], before any I/O, at
    construction and after the merge of every [connect], exactly when the
    configuration has: [start_tls] together with [use_tls]; a TLS context
    together with a client certificate; a socket together with a non-empty
    hostname, a non-zero port or a non-empty socket path; a socket path
    together with a non-empty hostname or a non-zero port; or a hostname or
    local hostname containing a carriage return or a line feed.  Every
    configuration it refuses violates an invariant of the data model. *)
Theorem validate_config_exactly (s : SMTPConnection) (a : InitArgs)
    (env : Env) (kw : Kwargs) (st : State) :
  ((exists msg, _validate_config s = Some (ValueError msg)) <-> rejected s = true)
  /\ (_validate_config s = None <-> rejected s = false)
  /\ ((exists msg, __init__ a = inl (ValueError msg))
      <-> rejected (init_fields a) = true)
  /\ (__init__ a = inr (init_fields a) <-> rejected (init_fields a) = false)
  /\ (refused_before_io (connect env kw st) st
      <-> rejected (_update_settings_from_kwargs kw st.(self)) = true)
  /\ (rejected (_update_settings_from_kwargs kw st.(self)) = true ->
      snd (connect env kw st)
      = MkState (_update_settings_from_kwargs kw st.(self)) st.(io))
  /\ (rejected s = true -> violates_invariant s = true).
Proof.
  assert (Hv : forall c, (exists msg, _validate_config c = Some (ValueError msg))
                         <-> rejected c = true).
  { intros c. split; [| apply validate_config_rejected].
    intros [msg H]. destruct (rejected c) eqn:E; [reflexivity|].
    rewrite (validate_config_accepted c E) in H. discriminate H. }
  repeat split.
  - apply Hv.
  - apply Hv.
  - apply validate_config_None_iff.
  - apply validate_config_None_iff.
  - intros [msg H]. unfold __init__ in H.
    destruct (_validate_config (init_fields a)) as [e|] eqn:E; [| discriminate H].
    apply Hv. exists msg. inversion H; subst e. exact E.
  - intros H. apply Hv in H. destruct H as [msg H]. exists msg.
    unfold __init__. now rewrite H.
  - unfold __init__. intros H. apply validate_config_None_iff.
    destruct (_validate_config (init_fields a)); [discriminate H | reflexivity].
  - intros H. unfold __init__.
    now rewrite (validate_config_accepted _ H).
  - apply connect_refused_iff.
  - apply connect_refused_iff.
  - intros H. rewrite connect_eq. cbv zeta.
    destruct (validate_config_rejected _ H) as [msg ->]. reflexivity.
  - apply rejected_violates.
Qed.

Lemma validate_config_exactly_witness :
  (exists msg, __init__ args_both_tls = inl (ValueError msg))
  /\ __init__ default_args = inr (init_fields default_args)
  /\ refused_before_io (connect env_ready kw_hostname_injection fresh) fresh
  /\ snd (connect env_ready kw_hostname_injection fresh)
     = MkState (_update_settings_from_kwargs kw_hostname_injection fresh.(self)) [].
Proof.
  destruct (validate_config_exactly (init_fields default_args) args_both_tls
              env_ready kw_hostname_injection fresh)
    as [_ [_ [H1 [_ [H3 [H4 _]]]]]].
  destruct (validate_config_exactly (init_fields default_args) default_args
              env_ready no_kwargs fresh)
    as [_ [_ [_ [H2 _]]]].
  split; [| split; [| split]].
  - apply H1. reflexivity.
  - apply H2. reflexivity.
  - apply H3. reflexivity.
  - apply H4. reflexivity.
Defined.

(** ** The default hostname against a socket or a socket path *)

Lemma validate_config_hostname_with_socket (s : SMTPConnection) :
  truthy_opt_str s.(hostname) = true ->
  is_not_None s.(sock) || is_not_None s.(socket_path) = true ->
  exists msg, _validate_config s = Some (ValueError msg)
              /\ In msg mutual_exclusion_messages.
Proof.
  intros Hh Hs. unfold _validate_config, mutual_exclusion_messages.
  rewrite Hh. simpl.
  destruct (truthy_opt_bool (_start_tls_on_connect s) && use_tls s);
    [eexists; split; [reflexivity | simpl; tauto]|].
  destruct (is_not_None (tls_context s) && is_not_None (client_cert s));
    [eexists; split; [reflexivity | simpl; tauto]|].
  destruct (is_not_None (sock s)); simpl;
    [eexists; split; [reflexivity | simpl; tauto]|].
  simpl in Hs. rewrite Hs. simpl.
  eexists; split; [reflexivity | simpl; tauto].
Qed.

Lemma validate_config_socket_needs_no_host (s : SMTPConnection) :
  is_not_None s.(sock) || is_not_None s.(socket_path) = true ->
  _validate_config s = None ->
  truthy_opt_str s.(hostname) = false /\ truthy_opt_int s.(port) = false.
Proof.
  intros Hs Hv. apply validate_config_None_iff in Hv.
  unfold rejected in Hv.
  destruct (truthy_opt_str (hostname s)), (truthy_opt_int (port s)),
    (is_not_None (sock s)), (is_not_None (socket_path s));
    simpl in *; try discriminate; try (split; reflexivity);
    rewrite ?orb_true_r in Hv; simpl in Hv; try discriminate.
Qed.

(** C10: with the hostname at its default, ["localhost"], a socket or a
    socket path makes [__init__] raise one of the mutual-exclusion
    [ValueError]s; so does [connect] on an instance whose stored hostname is
    the default when the call does not pass [hostname]; and whenever
    validation passes with a socket or a socket path, the hostname is [None]
    or empty and the port is [None] or zero. *)
Theorem default_hostname_excludes_socket (a : InitArgs) (env : Env)
    (kw : Kwargs) (st : State) (s : SMTPConnection) :
  (a.(arg_hostname) = default_args.(arg_hostname) ->
   is_not_None a.(arg_sock) || is_not_None a.(arg_socket_path) = true ->
   exists msg, __init__ a = inl (ValueError msg)
               /\ In msg mutual_exclusion_messages)
  /\ (st.(self).(hostname) = default_args.(arg_hostname) ->
      kw.(kw_hostname) = _default ->
      is_not_None (merged kw.(kw_sock) st.(self).(sock))
      || is_not_None (merged kw.(kw_socket_path) st.(self).(socket_path)) = true ->
      exists msg,
        connect env kw st
        = (Raised (ValueError msg),
           MkState (_update_settings_from_kwargs kw st.(self)) st.(io))
        /\ In msg mutual_exclusion_messages)
  /\ (is_not_None s.(sock) || is_not_None s.(socket_path) = true ->
      _validate_config s = None ->
      truthy_opt_str s.(hostname) = false /\ truthy_opt_int s.(port) = false).
Proof.
  split; [| split].
  - intros Hh Hs. unfold __init__.
    destruct (validate_config_hostname_with_socket (init_fields a))
      as [msg [Hv Hin]].
    + simpl. rewrite Hh. reflexivity.
    + exact Hs.
    + rewrite Hv. exists msg. split; [reflexivity | exact Hin].
  - intros Hh Hkw Hs. rewrite connect_eq. cbv zeta.
    destruct (validate_config_hostname_with_socket
                (_update_settings_from_kwargs kw (self st)))
      as [msg [Hv Hin]].
    + rewrite merge_hostname, Hkw. simpl. rewrite Hh. reflexivity.
    + rewrite merge_sock, merge_socket_path. exact Hs.
    + rewrite Hv. exists msg. split; [reflexivity | exact Hin].
  - apply validate_config_socket_needs_no_host.
Qed.

Lemma default_hostname_excludes_socket_witness :
  (exists msg, __init__ args_socket_only = inl (ValueError msg)
               /\ In msg mutual_exclusion_messages)
  /\ (exists msg,
        connect env_ready kw_socket_only fresh
        = (Raised (ValueError msg),
           MkState (_update_settings_from_kwargs kw_socket_only fresh.(self))
                   fresh.(io))
        /\ In msg mutual_exclusion_messages)
  /\ _validate_config (_update_settings_from_kwargs kw_via_socket fresh.(self))
     = None.
Proof.
  pose proof (default_hostname_excludes_socket args_socket_only env_ready
                kw_socket_only fresh (init_fields default_args)) as [H1 [H2 _]].
  split; [| split].
  - apply H1; reflexivity.
  - apply H2; reflexivity.
  - reflexivity.
Defined.

(** ** The default port *)

Lemma port_set_default_port (s : SMTPConnection) :
  (set_default_port s).(port) = port_after_connect s.
Proof.
  unfold set_default_port, port_after_connect.
  destruct (port s) eqn:Ep, (sock s), (socket_path s);
    simpl; try exact Ep.
  destruct (use_tls s); [reflexivity|].
  destruct (truthy_opt_bool (_start_tls_on_connect s)); reflexivity.
Qed.

Lemma port_after_connect_prepared (env : Env) (kw : Kwargs) (s : SMTPConnection) :
  (entered env kw s).(port) = port_after_connect (_update_settings_from_kwargs kw s).
Proof.
  unfold entered. rewrite port_set_default_port.
  unfold prepared. cbv zeta.
  destruct (is_not_None _); reflexivity.
Qed.

Lemma rebound_port (st st' : State) :
  rebound st st' -> st'.(self).(port) = st.(self).(port).
Proof.
  intros [[-> | [p [t ->]]] _]; reflexivity.
Qed.

(** C5: when [connect] has validated the merged configuration and taken the
    lock, the port it leaves stored is 465 for [use_tls], 587 for
    [start_tls] and 25 otherwise if the merged port was [None] and neither a
    socket nor a socket path is set; in every other case it is the merged
    port, unchanged.  This holds however the attempt then ends. *)
Theorem connect_default_port (env : Env) (kw : Kwargs) (st : State) :
  let m := _update_settings_from_kwargs kw st.(self) in
  _validate_config m = None ->
  lock_held st.(self) = false ->
  let p := (snd (connect env kw st)).(self).(port) in
  (m.(port) = None -> m.(sock) = None -> m.(socket_path) = None ->
     (m.(use_tls) = true -> p = Some SMTP_TLS_PORT)
     /\ (m.(use_tls) = false -> m.(_start_tls_on_connect) = Some true ->
         p = Some SMTP_STARTTLS_PORT)
     /\ (m.(use_tls) = false -> truthy_opt_bool m.(_start_tls_on_connect) = false ->
         p = Some SMTP_PORT))
  /\ (m.(port) <> None \/ m.(sock) <> None \/ m.(socket_path) <> None ->
      p = m.(port)).
Proof.
  cbv zeta. intros Hv Hl.
  assert (Hp : (snd (connect env kw st)).(self).(port)
               = port_after_connect (_update_settings_from_kwargs kw (self st))).
  { rewrite connect_eq. cbv zeta. rewrite Hv.
    unfold lock_held in *. rewrite merge_connect_lock.
    fold (lock_held (self st)). unfold lock_held. 
    destruct (_connect_lock (self st)) as [[b]|] eqn:El; simpl in Hl;
      try subst b;
      pose proof (create_connection_cases env
                    (MkState (entered env kw (self st)) (io st))) as Hc;
      destruct (_create_connection env _) as [[r|e|] st'];
      try contradiction; simpl.
    - destruct Hc as [_ [_ [[p [t Hs]] _]]]. rewrite Hs. simpl.
      apply port_after_connect_prepared.
    - rewrite close_eq. simpl.
      assert (Hr : port (released (self st')) = port (self st')).
      { unfold released. destruct (_connect_lock (self st')) as [[[|]]|];
          reflexivity. }
      rewrite Hr, (rebound_port Hc). apply port_after_connect_prepared.
    - destruct Hc as [_ [_ [[p [t Hs]] _]]]. rewrite Hs. simpl.
      apply port_after_connect_prepared.
    - rewrite close_eq. simpl.
      assert (Hr : port (released (self st')) = port (self st')).
      { unfold released. destruct (_connect_lock (self st')) as [[[|]]|];
          reflexivity. }
      rewrite Hr, (rebound_port Hc). apply port_after_connect_prepared. }
  rewrite Hp. clear Hp.
  set (m := _update_settings_from_kwargs kw (self st)).
  unfold port_after_connect. split.
  - intros -> -> ->. repeat split.
    + intros ->. reflexivity.
    + intros -> ->. reflexivity.
    + intros -> ->. reflexivity.
  - intros H. destruct (port m) eqn:Ep; [reflexivity|].
    destruct (sock m) eqn:Es, (socket_path m) eqn:Esp; try reflexivity.
    destruct H as [H | [H | H]]; congruence.
Qed.

Lemma connect_default_port_witness :
  (snd (connect env_ready no_kwargs fresh)).(self).(port) = Some 25
  /\ (snd (connect env_ready kw_direct_tls fresh)).(self).(port) = Some 465
  /\ (snd (connect env_ready kw_upgrade_tls fresh)).(self).(port) = Some 587
  /\ (snd (connect env_ready kw_via_socket fresh)).(self).(port) = None.
Proof.
  split; [| split; [| split]].
  - destruct (connect_default_port env_ready no_kwargs fresh eq_refl eq_refl)
      as [H _].
    apply H; reflexivity.
  - destruct (connect_default_port env_ready kw_direct_tls fresh eq_refl eq_refl)
      as [H _].
    apply H; reflexivity.
  - destruct (connect_default_port env_ready kw_upgrade_tls fresh
                eq_refl eq_refl) as [H _].
    apply H; reflexivity.
  - destruct (connect_default_port env_ready kw_via_socket fresh
                eq_refl eq_refl) as [_ H].
    apply H. right; left. discriminate.
Defined.

(** ** Teardown, again *)

Lemma close_disconnects (st : State) :
  Disconnected (snd (close st)).(self)
  /\ lock_held (snd (close st)).(self) = false.
Proof.
  rewrite close_eq. simpl.
  destruct st as [s l]. destruct s. simpl.
  unfold Disconnected, lock_held, released; simpl.
  destruct _connect_lock0 as [[[|]]|]; simpl; repeat split; reflexivity.
Qed.

(** C7: [close] returns from every state, never raising and never waiting;
    it leaves [protocol] and [transport] at [None] and the connect lock not
    held; and a second [close] changes nothing more, neither the instance
    nor the I/O log. *)
Theorem close_idempotent (st : State) :
  fst (close st) = Returned tt
  /\ Disconnected (snd (close st)).(self)
  /\ lock_held (snd (close st)).(self) = false
  /\ (snd (close st)).(io) = log_after_close st.(self) st.(io)
  /\ close (snd (close st)) = close st.
Proof.
  rewrite !close_eq. simpl.
  destruct st as [s l]. destruct s. simpl.
  unfold Disconnected, lock_held, released, log_after_close; simpl.
  destruct transport0 as [[id [|]]|], _connect_lock0 as [[[|]]|];
    simpl; repeat split; reflexivity.
Qed.

(** The engine's callback resets the instance when the connection was lost
    with an error or by cancellation, and does nothing otherwise. *)
Lemma connection_lost_resets (waiter : Waiter) (st : State) :
  _connection_lost waiter st
  = if waiter.(cancelled) || is_not_None waiter.(exception)
    then close st
    else (Returned tt, st).
Proof.
  unfold _connection_lost, when, ret.
  destruct (cancelled waiter || is_not_None (exception waiter)); reflexivity.
Qed.

(** ** Commands without a connection *)

(** C4 (amended): with no engine bound, [execute_command] raises
    [SMTPServerDisconnected("Server not connected")] at once, leaving the
    instance and the I/O log as they were; with no transport bound,
    [get_transport_info] does the same.  The exception is the one the
    taxonomy files under [ServerDisconnected]; nothing in this module
    raises a separate [NotConnected]. *)
Theorem not_connected_raises_server_disconnected (env : Env)
    (args : list string) (timeout_arg : Default (option Q)) (key : string)
    (st : State) :
  (st.(self).(protocol) = None ->
   execute_command env args timeout_arg st
   = (Raised (SMTPServerDisconnected "Server not connected"), st))
  /\ (st.(self).(transport) = None ->
      get_transport_info env key st
      = (Raised (SMTPServerDisconnected "Server not connected"), st))
  /\ taxonomy (SMTPServerDisconnected "Server not connected") = ServerDisconnected
  /\ (forall e, taxonomy e = NotConnected -> False).
Proof.
  repeat split.
  - intros H. unfold execute_command, bind, get_self. simpl. rewrite H.
    reflexivity.
  - intros H. unfold get_transport_info, bind, get_self. simpl. rewrite H.
    reflexivity.
  - intros e. destruct e; discriminate.
Qed.

Lemma not_connected_raises_server_disconnected_witness :
  execute_command env_ready ["NOOP"] _default fresh
  = (Raised (SMTPServerDisconnected "Server not connected"), fresh)
  /\ get_transport_info env_ready "peername" fresh
     = (Raised (SMTPServerDisconnected "Server not connected"), fresh).
Proof.
  destruct (not_connected_raises_server_disconnected env_ready ["NOOP"]
              _default "peername" fresh) as [H1 [H2 _]].
  split; [apply H1 | apply H2]; reflexivity.
Defined.

(** C4, as stated, fails: on a fresh instance [execute_command] and
    [get_transport_info] raise [SMTPServerDisconnected], which is the
    [ServerDisconnected] member of the taxonomy and not [NotConnected]. *)
Lemma not_connected_counterexample :
  (exists e,
     fst (execute_command env_ready ["NOOP"] _default fresh) = Raised e
     /\ taxonomy e = ServerDisconnected
     /\ taxonomy e <> NotConnected)
  /\ (exists e,
        fst (get_transport_info env_ready "peername" fresh) = Raised e
        /\ taxonomy e = ServerDisconnected
        /\ taxonomy e <> NotConnected).
Proof.
  split; eexists; (split; [reflexivity | split; [reflexivity | discriminate]]).
Qed.

(** ** Commands and the 421 status *)

Lemma execute_command_eq (env : Env) (args : list string)
    (timeout_arg : Default (option Q)) (st : State) :
  execute_command env args timeout_arg st =
  match st.(self).(protocol) with
  | None => (Raised (SMTPServerDisconnected "Server not connected"), st)
  | Some _ =>
      match env.(protocol_execute_command) args
              (command_timeout timeout_arg st.(self)) with
      | inl e => (Raised e, command_sent args timeout_arg st)
      | inr r =>
          if (r.(code) =? SMTPStatus_domain_unavailable)%Z
          then (Returned r, snd (close (command_sent args timeout_arg st)))
          else (Returned r, command_sent args timeout_arg st)
      end
  end.
Proof.
  unfold execute_command, command_sent, command_timeout.
  unfold bind at 1. unfold get_self at 1. cbn [self io].
  destruct (protocol (self st)); [| reflexivity].
  unfold bind at 1. unfold emit at 1. cbn [self io].
  unfold bind at 1.
  destruct (protocol_execute_command env args _) as [e|r]; [reflexivity|].
  cbn [lift_exn ret]. unfold bind, when, ret.
  destruct (code r =? SMTPStatus_domain_unavailable)%Z; [| reflexivity].
  rewrite !close_eq. reflexivity.
Qed.

(** C3: a response that [execute_command] returns with status 421 is
    returned from a closed connection, [protocol] and [transport] at [None];
    a response returned with any other status leaves the instance exactly
    as it was.  A response is returned whenever an engine is bound and
    answers. *)
Theorem execute_command_closes_on_421 (env : Env) (args : list string)
    (timeout_arg : Default (option Q)) (st : State) :
  (forall r st',
     execute_command env args timeout_arg st = (Returned r, st') ->
     (r.(code) = 421 ->
        Disconnected st'.(self)
        /\ st' = snd (close (command_sent args timeout_arg st)))
     /\ (r.(code) <> 421 -> st'.(self) = st.(self)))
  /\ (forall p r,
        st.(self).(protocol) = Some p ->
        env.(protocol_execute_command) args
          (command_timeout timeout_arg st.(self)) = inr r ->
        fst (execute_command env args timeout_arg st) = Returned r).
Proof.
  split.
  - intros r st' H. rewrite execute_command_eq in H.
    destruct (protocol (self st)); [| discriminate H].
    destruct (protocol_execute_command env args _) as [e|r0]; [discriminate H|].
    unfold SMTPStatus_domain_unavailable in H.
    destruct (code r0 =? 421)%Z eqn:E; inversion H; subst r0; clear H.
    + apply Z.eqb_eq in E. split; [| intros Hn; contradiction].
      intros _. split; [| reflexivity].
      apply (close_disconnects (command_sent args timeout_arg st)).
    + apply Z.eqb_neq in E. split; [intros He; contradiction|].
      intros _. reflexivity.
  - intros p r Hp Hr. rewrite execute_command_eq, Hp, Hr.
    destruct (code r =? SMTPStatus_domain_unavailable)%Z; reflexivity.
Qed.

Lemma execute_command_closes_on_421_witness :
  fst (execute_command env_shutting_down ["NOOP"] _default connected)
  = Returned (MkSMTPResponse 421 "shutting down")
  /\ Disconnected
       (snd (execute_command env_shutting_down ["NOOP"] _default connected)).(self)
  /\ (snd (execute_command env_ready ["NOOP"] _default connected)).(self)
     = connected.(self).
Proof.
  destruct (execute_command_closes_on_421 env_shutting_down ["NOOP"] _default
              connected) as [H1 H2].
  destruct (execute_command_closes_on_421 env_ready ["NOOP"] _default
              connected) as [H3 _].
  assert (E1 : execute_command env_shutting_down ["NOOP"] _default connected
               = (Returned (MkSMTPResponse 421 "shutting down"),
                  snd (execute_command env_shutting_down ["NOOP"] _default
                         connected)))
    by (vm_compute; reflexivity).
  assert (E3 : execute_command env_ready ["NOOP"] _default connected
               = (Returned (MkSMTPResponse 250 "OK"),
                  snd (execute_command env_ready ["NOOP"] _default connected)))
    by (vm_compute; reflexivity).
  split; [| split].
  - apply (H2 (MkSMTPProtocol (MkEventLoop 1))); vm_compute; reflexivity.
  - exact (proj1 (proj1 (H1 _ _ E1) eq_refl)).
  - apply (proj2 (H3 _ _ E3)). discriminate.
Defined.

(** ** The outcome of [connect] *)

Lemma lock_held_merge (kw : Kwargs) (s : SMTPConnection) :
  lock_held (_update_settings_from_kwargs kw s) = lock_held s.
Proof. unfold lock_held. now rewrite merge_connect_lock. Qed.





(** ** The connect lock *)

Lemma connect_acquires (env : Env) (kw : Kwargs) (st : State) :
  lock_held st.(self) = false ->
  is_Blocked (fst (connect env kw st)) = false.
Proof.
  intros Hl. rewrite connect_eq. cbv zeta.
  destruct (_validate_config _); [reflexivity|].
  rewrite lock_held_merge, Hl.
  pose proof (create_connection_cases env
                (MkState (entered env kw (self st)) (io st))) as Hc.
  destruct (_create_connection env _) as [[r|e|] st'];
    [reflexivity | reflexivity | contradiction].
Qed.





(** ** The error mapping of the handshake *)

Ltac log_cases H :=
  rewrite ?in_app_iff in H; simpl in H;
  repeat match type of H with
         | _ \/ _ => destruct H as [H | H]
         end.

Lemma create_connection_handshake (env : Env) (st : State) (coro : ConnectCoro) :
  ~ In (EvWaitForConnection coro st.(self).(timeout)) st.(io) ->
  In (EvWaitForConnection coro st.(self).(timeout))
     (snd (_create_connection env st)).(io) ->
  fst (_create_connection env st) = handshake_outcome env st.(self) coro.
Proof.
  destruct st as [s l].
  unfold _create_connection, _get_tls_context, connect_coro, connect_coro_host,
    bind, get_self, modify, emit, ret, raise; simpl.
  repeat (break_match; simpl in * );
    intros Hn Hin; log_cases Hin;
    try contradiction; try discriminate Hin;
    inversion Hin; subst; unfold handshake_outcome; simpl;
    repeat match goal with
           | H : ?x = _ |- context [?x] => rewrite H
           end;
    simpl; try reflexivity.
  all: match goal with
       | |- context [(?a =? ?b)%Z] =>
           destruct (a =? b)%Z; simpl in *; congruence
       end.
Qed.

Lemma in_log_after_close (s : SMTPConnection) (l : list IOEvent)
    (coro : ConnectCoro) (t : option Q) :
  In (EvWaitForConnection coro t) (log_after_close s l) ->
  In (EvWaitForConnection coro t) l.
Proof.
  unfold log_after_close. destruct (transport s) as [[id [|]]|]; auto.
  rewrite in_app_iff. simpl. intros [H | [H | []]]; [exact H | discriminate H].
Qed.

Lemma connect_handshake (env : Env) (kw : Kwargs) (st : State) (coro : ConnectCoro) :
  let s1 := entered env kw st.(self) in
  ~ In (EvWaitForConnection coro s1.(timeout)) st.(io) ->
  In (EvWaitForConnection coro s1.(timeout)) (snd (connect env kw st)).(io) ->
  fst (connect env kw st) = handshake_outcome env s1 coro.
Proof.
  cbv zeta. intros Hn Hin. rewrite connect_eq in *. cbv zeta in *.
  destruct (_validate_config _); [contradiction|].
  destruct (lock_held _); [contradiction|].
  pose proof (create_connection_handshake env
                (MkState (entered env kw (self st)) (io st)) coro Hn) as Hh.
  simpl in Hh.
  destruct (_create_connection env _) as [[r|e|] st']; simpl in *.
  - apply Hh, Hin.
  - apply Hh. rewrite close_eq in Hin. simpl in Hin.
    eapply in_log_after_close, Hin.
  - apply Hh, Hin.
Qed.

(** The error mapping where the handlers are each reached: once [connect]
    has awaited the opening of the transport, it maps what follows onto its
    two connect errors.  Opening: an exception that is
    an [OSError] becomes [SMTPConnectError] with the hostname, the port and
    the text of the exception in its message and the exception as its cause;
    an expiry ([asyncio.TimeoutError]) that the [OSError] handler, tried
    first, has not caught becomes [SMTPConnectTimeoutError].  Greeting:
    [SMTPServerDisconnected] becomes [SMTPConnectError], [SMTPTimeoutError]
    becomes [SMTPConnectTimeoutError], and a response whose status is not
    220 becomes [SMTPConnectError] carrying that response. *)
Theorem connect_error_mapping (env : Env) (kw : Kwargs) (st : State)
    (coro : ConnectCoro) :
  let s1 := entered env kw st.(self) in
  let t := s1.(timeout) in
  ~ In (EvWaitForConnection coro t) st.(io) ->
  In (EvWaitForConnection coro t) (snd (connect env kw st)).(io) ->
  (forall exc,
     env.(wait_for_connection) coro t = inl exc ->
     exc.(exc_is_asyncio_TimeoutError) = true ->
     exc.(exc_is_OSError) = false ->
     fst (connect env kw st)
     = Raised (SMTPConnectTimeoutError
                 (MsgTimedOutConnecting s1.(hostname) s1.(port))
                 (Some (PyException exc))))
  /\ (forall exc,
        env.(wait_for_connection) coro t = inl exc ->
        exc.(exc_is_OSError) = true ->
        fst (connect env kw st)
        = Raised (SMTPConnectError
                    (MsgErrorConnecting s1.(hostname) s1.(port) exc.(exc_str))
                    (Some (PyException exc))))
  /\ (forall tr msg,
        env.(wait_for_connection) coro t = inr tr ->
        env.(protocol_read_response) t = inl (SMTPServerDisconnected msg) ->
        fst (connect env kw st)
        = Raised (SMTPConnectError
                    (MsgErrorConnecting s1.(hostname) s1.(port) msg)
                    (Some (SMTPServerDisconnected msg))))
  /\ (forall tr msg,
        env.(wait_for_connection) coro t = inr tr ->
        env.(protocol_read_response) t = inl (SMTPTimeoutError msg) ->
        fst (connect env kw st)
        = Raised (SMTPConnectTimeoutError MsgTimedOutWaitingReady
                    (Some (SMTPTimeoutError msg))))
  /\ (forall tr response,
        env.(wait_for_connection) coro t = inr tr ->
        env.(protocol_read_response) t = inr response ->
        response.(code) <> 220 ->
        fst (connect env kw st)
        = Raised (SMTPConnectError (MsgResponse response) None))
  /\ (forall msg cause, taxonomy (SMTPConnectError msg cause) = ConnectError)
  /\ (forall msg cause,
        taxonomy (SMTPConnectTimeoutError msg cause) = ConnectTimeout).
Proof.
  cbv zeta. intros Hn Hin.
  rewrite (connect_handshake env kw st coro Hn Hin).
  unfold handshake_outcome.
  repeat split.
  - intros exc -> Ht Ho. now rewrite Ho, Ht.
  - intros exc -> Ho. now rewrite Ho.
  - intros tr msg -> ->. reflexivity.
  - intros tr msg -> ->. reflexivity.
  - intros tr r -> -> Hc. apply Z.eqb_neq in Hc.
    unfold SMTPStatus_ready. now rewrite Hc.
Qed.

Ltac awaited := first [ intros [] | vm_compute; tauto ].

Lemma connect_error_mapping_witness :
  fst (connect env_open_timeout no_kwargs fresh)
  = Raised (SMTPConnectTimeoutError
              (MsgTimedOutConnecting (Some "localhost") (Some 25))
              (Some (PyException (MkPyExc false true ""))))
  /\ fst (connect env_refused no_kwargs fresh)
     = Raised (SMTPConnectError
                 (MsgErrorConnecting (Some "localhost") (Some 25)
                    "[Errno 111] Connection refused")
                 (Some (PyException
                          (MkPyExc true false "[Errno 111] Connection refused"))))
  /\ fst (connect env_greeting_eof no_kwargs fresh)
     = Raised (SMTPConnectError
                 (MsgErrorConnecting (Some "localhost") (Some 25)
                    "Connection lost")
                 (Some (SMTPServerDisconnected "Connection lost")))
  /\ fst (connect env_greeting_timeout no_kwargs fresh)
     = Raised (SMTPConnectTimeoutError MsgTimedOutWaitingReady
                 (Some (SMTPTimeoutError "Timed out waiting for server response")))
  /\ fst (connect env_greeting_421 no_kwargs fresh)
     = Raised (SMTPConnectError
                 (MsgResponse (MkSMTPResponse 421 "retry in 5 minutes")) None).
Proof.
  split; [| split; [| split; [| split]]].
  - assert (Hn : ~ In (EvWaitForConnection coro_localhost (Some DEFAULT_TIMEOUT))
                      fresh.(io)) by awaited.
    assert (Hin : In (EvWaitForConnection coro_localhost (Some DEFAULT_TIMEOUT))
                     (snd (connect env_open_timeout no_kwargs fresh)).(io))
      by awaited.
    destruct (connect_error_mapping env_open_timeout no_kwargs fresh
                coro_localhost Hn Hin) as [H _].
    apply (H (MkPyExc false true "")); reflexivity.
  - assert (Hn : ~ In (EvWaitForConnection coro_localhost (Some DEFAULT_TIMEOUT))
                      fresh.(io)) by awaited.
    assert (Hin : In (EvWaitForConnection coro_localhost (Some DEFAULT_TIMEOUT))
                     (snd (connect env_refused no_kwargs fresh)).(io))
      by awaited.
    destruct (connect_error_mapping env_refused no_kwargs fresh
                coro_localhost Hn Hin) as [_ [H _]].
    apply (H (MkPyExc true false "[Errno 111] Connection refused")); reflexivity.
  - assert (Hn : ~ In (EvWaitForConnection coro_localhost (Some DEFAULT_TIMEOUT))
                      fresh.(io)) by awaited.
    assert (Hin : In (EvWaitForConnection coro_localhost (Some DEFAULT_TIMEOUT))
                     (snd (connect env_greeting_eof no_kwargs fresh)).(io))
      by awaited.
    destruct (connect_error_mapping env_greeting_eof no_kwargs fresh
                coro_localhost Hn Hin) as [_ [_ [H _]]].
    apply (H (MkTransport 7 false)); reflexivity.
  - assert (Hn : ~ In (EvWaitForConnection coro_localhost (Some DEFAULT_TIMEOUT))
                      fresh.(io)) by awaited.
    assert (Hin : In (EvWaitForConnection coro_localhost (Some DEFAULT_TIMEOUT))
                     (snd (connect env_greeting_timeout no_kwargs fresh)).(io))
      by awaited.
    destruct (connect_error_mapping env_greeting_timeout no_kwargs fresh
                coro_localhost Hn Hin) as [_ [_ [_ [H _]]]].
    apply (H (MkTransport 7 false)); reflexivity.
  - assert (Hn : ~ In (EvWaitForConnection coro_localhost (Some DEFAULT_TIMEOUT))
                      fresh.(io)) by awaited.
    assert (Hin : In (EvWaitForConnection coro_localhost (Some DEFAULT_TIMEOUT))
                     (snd (connect env_greeting_421 no_kwargs fresh)).(io))
      by awaited.
    destruct (connect_error_mapping env_greeting_421 no_kwargs fresh
                coro_localhost Hn Hin) as [_ [_ [_ [_ [H _]]]]].
    apply (H (MkTransport 7 false)); [reflexivity | reflexivity | discriminate].
Defined.

(** The handlers of the open are tried in the order written: an expiry
    whose class is also an [OSError] is caught by the first one and reported
    as [SMTPConnectError]. *)
Lemma open_timeout_that_is_OSError (env : Env) (s : SMTPConnection)
    (coro : ConnectCoro) (exc : PyExc) :
  env.(wait_for_connection) coro s.(timeout) = inl exc ->
  exc.(exc_is_OSError) = true ->
  exc.(exc_is_asyncio_TimeoutError) = true ->
  handshake_outcome env s coro
  = Raised (SMTPConnectError
              (MsgErrorConnecting s.(hostname) s.(port) exc.(exc_str))
              (Some (PyException exc))).
Proof.
  intros Hw Ho _. unfold handshake_outcome. now rewrite Hw, Ho.
Qed.

(** C2 fails on the open's timeout: the code reports it as a connect error
    wherever the expiry is an [OSError].  The [except OSError] handler of
    [_create_connection] is written before the [except asyncio.TimeoutError]
    one, so an expiry of the open whose class is both (from Python 3.11 on
    [asyncio.TimeoutError] is the built-in [TimeoutError], a subclass of
    [OSError]) makes [connect] raise [SMTPConnectError], with the hostname,
    the port and the exception's text in its message and the exception as its
    cause; whatever [connect] raises there is a connect error of the
    taxonomy and not its connect timeout, and the second handler is never
    reached. *)
Theorem connect_open_timeout_misreported (env : Env) (kw : Kwargs) (st : State)
    (coro : ConnectCoro) (exc : PyExc) :
  let s1 := entered env kw st.(self) in
  let t := s1.(timeout) in
  ~ In (EvWaitForConnection coro t) st.(io) ->
  In (EvWaitForConnection coro t) (snd (connect env kw st)).(io) ->
  env.(wait_for_connection) coro t = inl exc ->
  exc.(exc_is_asyncio_TimeoutError) = true ->
  exc.(exc_is_OSError) = true ->
  fst (connect env kw st)
  = Raised (SMTPConnectError
              (MsgErrorConnecting s1.(hostname) s1.(port) exc.(exc_str))
              (Some (PyException exc)))
  /\ (forall e,
        fst (connect env kw st) = Raised e ->
        taxonomy e = ConnectError /\ taxonomy e <> ConnectTimeout)
  /\ (forall msg cause,
        fst (connect env kw st) <> Raised (SMTPConnectTimeoutError msg cause)).
Proof.
  cbv zeta. intros Hn Hin Hw Ht Ho.
  rewrite (connect_handshake env kw st coro Hn Hin).
  rewrite (@open_timeout_that_is_OSError env (entered env kw (self st)) coro
             exc Hw Ho Ht).
  split; [reflexivity|].
  split.
  - intros e He. inversion He; subst e. simpl. split; [reflexivity | discriminate].
  - intros msg cause He. discriminate He.
Qed.

Lemma connect_open_timeout_misreported_witness :
  fst (connect env_open_timeout_py311 no_kwargs fresh)
  = Raised (SMTPConnectError
              (MsgErrorConnecting (Some "localhost") (Some 25) "")
              (Some (PyException exc_timeout_py311)))
  /\ taxonomy (SMTPConnectError
                 (MsgErrorConnecting (Some "localhost") (Some 25) "")
                 (Some (PyException exc_timeout_py311)))
     <> ConnectTimeout.
Proof.
  assert (Hn : ~ In (EvWaitForConnection coro_localhost (Some DEFAULT_TIMEOUT))
                    fresh.(io)) by awaited.
  assert (Hin : In (EvWaitForConnection coro_localhost (Some DEFAULT_TIMEOUT))
                   (snd (connect env_open_timeout_py311 no_kwargs fresh)).(io))
    by awaited.
  destruct (@connect_open_timeout_misreported env_open_timeout_py311 no_kwargs
              fresh coro_localhost exc_timeout_py311 Hn Hin
              eq_refl eq_refl eq_refl) as [H1 [H2 _]].
  split; [exact H1 | exact (proj2 (H2 _ H1))].
Defined.

(** ** The settings across [connect] *)

Lemma same_settings_refl (s : SMTPConnection) : same_settings s s.
Proof. unfold same_settings. tauto. Qed.

Lemma same_settings_trans (s1 s2 s3 : SMTPConnection) :
  same_settings s1 s2 -> same_settings s2 s3 -> same_settings s1 s3.
Proof.
  unfold same_settings. intros H12 H23.
  decompose [and] H12. decompose [and] H23.
  repeat match goal with |- _ /\ _ => split end; congruence.
Qed.

Lemma same_settings_entered (env : Env) (kw : Kwargs) (s : SMTPConnection) :
  same_settings (_update_settings_from_kwargs kw s) (entered env kw s).
Proof.
  unfold entered, prepared. cbv zeta.
  set (m := _update_settings_from_kwargs kw s).
  apply same_settings_trans
    with (s2 := set_connect_lock (Some (MkLock true))
                  (if is_not_None
                        (_connect_lock (set_loop (Some (get_running_loop env)) m))
                   then set_loop (Some (get_running_loop env)) m
                   else set_connect_lock (Some (MkLock false))
                          (set_loop (Some (get_running_loop env)) m))).
  - destruct (is_not_None _); unfold same_settings; simpl; tauto.
  - match goal with |- same_settings ?x _ => generalize x end.
    intros s1. unfold set_default_port.
    destruct (port s1), (sock s1), (socket_path s1);
      try apply same_settings_refl.
    destruct (use_tls s1);
      [| destruct (truthy_opt_bool (_start_tls_on_connect s1))];
      unfold same_settings; simpl; tauto.
Qed.

Lemma same_settings_rebound (st st' : State) :
  rebound st st' -> same_settings st.(self) st'.(self).
Proof.
  intros [[-> | [p [t ->]]] _]; unfold same_settings; simpl; tauto.
Qed.

Lemma same_settings_close (st : State) :
  same_settings st.(self) (snd (close st)).(self).
Proof.
  rewrite close_eq. simpl. unfold released.
  destruct (_connect_lock (self st)) as [[[|]]|];
    unfold same_settings; simpl; tauto.
Qed.

Lemma connect_keeps_settings (env : Env) (kw : Kwargs) (s : SMTPConnection)
    (l : list IOEvent) :
  same_settings (_update_settings_from_kwargs kw s)
    (snd (connect env kw (MkState s l))).(self).
Proof.
  rewrite connect_eq. cbv zeta. cbn [self io].
  destruct (_validate_config _); [apply same_settings_refl|].
  destruct (lock_held _).
  - cbn [snd self]. unfold prepared. cbv zeta.
    destruct (is_not_None _); unfold same_settings; simpl; tauto.
  - pose proof (create_connection_cases env (MkState (entered env kw s) l)) as Hc.
    destruct (_create_connection env _) as [[r|e|] st']; [| | contradiction].
    + destruct Hc as [_ [_ [[p [t Hs]] _]]]. cbn [snd self io] in *.
      eapply same_settings_trans; [apply same_settings_entered|].
      rewrite Hs. unfold same_settings; simpl; tauto.
    + cbn [snd].
      eapply same_settings_trans; [apply same_settings_entered|].
      eapply same_settings_trans;
        [apply (same_settings_rebound Hc) | apply same_settings_close].
Qed.

(** C9 (amended): the merge stores every option given and leaves every option
    not given as it was, field by field; the one exception is a
    [source_address] given as a string, which is stored as the local hostname
    (after, and so in place of, a [local_hostname] given in the same call)
    and leaves the stored source address alone.  Nothing else of the instance
    changes in the merge, and however the [connect] that made the merge
    ends, the instance keeps the merged settings (the port, which [connect]
    may default, apart). *)
Theorem update_settings_from_kwargs_frame (env : Env) (kw : Kwargs)
    (s : SMTPConnection) (l : list IOEvent) :
  let s' := _update_settings_from_kwargs kw s in
  s'.(hostname) = merged kw.(kw_hostname) s.(hostname)
  /\ s'.(port) = merged kw.(kw_port) s.(port)
  /\ s'.(_login_username) = merged kw.(kw_username) s.(_login_username)
  /\ s'.(_login_password) = merged kw.(kw_password) s.(_login_password)
  /\ s'.(timeout) = merged kw.(kw_timeout) s.(timeout)
  /\ s'.(use_tls) = merged_opt kw.(kw_use_tls) s.(use_tls)
  /\ s'.(_start_tls_on_connect) = merged kw.(kw_start_tls) s.(_start_tls_on_connect)
  /\ s'.(validate_certs) = merged_opt kw.(kw_validate_certs) s.(validate_certs)
  /\ s'.(client_cert) = merged kw.(kw_client_cert) s.(client_cert)
  /\ s'.(client_key) = merged kw.(kw_client_key) s.(client_key)
  /\ s'.(tls_context) = merged kw.(kw_tls_context) s.(tls_context)
  /\ s'.(cert_bundle) = merged kw.(kw_cert_bundle) s.(cert_bundle)
  /\ s'.(socket_path) = merged kw.(kw_socket_path) s.(socket_path)
  /\ s'.(sock) = merged kw.(kw_sock) s.(sock)
  /\ s'.(source_address)
     = merged_source_address kw.(kw_source_address) s.(source_address)
  /\ s'.(_local_hostname)
     = merged_local_hostname kw.(kw_local_hostname) kw.(kw_source_address)
         s.(_local_hostname)
  /\ s'.(protocol) = s.(protocol)
  /\ s'.(transport) = s.(transport)
  /\ s'.(loop) = s.(loop)
  /\ s'.(_connect_lock) = s.(_connect_lock)
  /\ same_settings s' (snd (connect env kw (MkState s l))).(self).
Proof.
  cbv zeta.
  repeat match goal with |- _ /\ _ => split end;
    auto using connect_keeps_settings, merge_hostname, merge_port, merge_login_username,
      merge_login_password, merge_timeout, merge_use_tls, merge_start_tls,
      merge_validate_certs, merge_client_cert, merge_client_key,
      merge_tls_context, merge_cert_bundle, merge_socket_path, merge_sock,
      merge_source_address, merge_local_hostname, merge_protocol,
      merge_transport, merge_loop, merge_connect_lock.
Qed.


(** * Further properties of the connection manager *)

(** ** What [connect] opens *)

Lemma create_connection_awaited (env : Env) (st : State) (coro : ConnectCoro) :
  ~ In (EvWaitForConnection coro st.(self).(timeout)) st.(io) ->
  In (EvWaitForConnection coro st.(self).(timeout))
     (snd (_create_connection env st)).(io) ->
  targets st.(self) coro
  /\ tls_arguments st.(self) (fst (coro_ssl coro)) (snd (coro_ssl coro))
  /\ bound_after_open env st.(self) (snd (_create_connection env st)).(self) coro.
Proof.
  destruct st as [s l].
  unfold _create_connection, _get_tls_context, connect_coro, connect_coro_host,
    bind, get_self, modify, emit, ret, raise; simpl.
  repeat (break_match; simpl in * );
    intros Hn Hin; log_cases Hin;
    try contradiction; try discriminate Hin;
    inversion Hin; subst;
    unfold targets, tls_arguments, coro_ssl, bound_after_open, truthy_opt_path;
    simpl;
    repeat match goal with
           | H : ?x = _ |- context [?x] => rewrite H
           end;
    simpl; repeat split; try reflexivity; eauto 10.
Qed.

(** A [connect] whose log shows an open got past validation and the lock,
    and the open is [_create_connection]'s. *)
Lemma connect_reaches_open (env : Env) (kw : Kwargs) (st : State)
    (coro : ConnectCoro) :
  let s1 := entered env kw st.(self) in
  let ev := EvWaitForConnection coro s1.(timeout) in
  ~ In ev st.(io) ->
  In ev (snd (connect env kw st)).(io) ->
  _validate_config (_update_settings_from_kwargs kw st.(self)) = None
  /\ lock_held st.(self) = false
  /\ In ev (snd (_create_connection env (MkState s1 st.(io)))).(io).
Proof.
  cbv zeta. intros Hn Hin. rewrite connect_eq in Hin. cbv zeta in Hin.
  destruct (_validate_config _); [contradiction|].
  rewrite lock_held_merge in Hin.
  destruct (lock_held (self st)); [contradiction|].
  split; [reflexivity | split; [reflexivity|]].
  destruct (_create_connection env _) as [[r|e|] st']; simpl in *; auto.
  rewrite close_eq in Hin. simpl in Hin.
  eapply in_log_after_close, Hin.
Qed.

(** X1: whatever [connect] asks the event loop to open, the target follows
    the stored configuration (merged, port defaulted) in a fixed order of
    precedence: a connection on the caller's socket if [sock] is set;
    otherwise a Unix connection on [socket_path] if that is non-empty;
    otherwise a TCP connection to the stored hostname and port, bound to
    [source_address], which is passed in no other case. *)
Theorem connect_opens_target (env : Env) (kw : Kwargs) (st : State)
    (coro : ConnectCoro) :
  let s1 := entered env kw st.(self) in
  ~ In (EvWaitForConnection coro s1.(timeout)) st.(io) ->
  In (EvWaitForConnection coro s1.(timeout)) (snd (connect env kw st)).(io) ->
  targets s1 coro.
Proof.
  cbv zeta. intros Hn Hin.
  destruct (connect_reaches_open env kw st coro Hn Hin) as [_ [_ H]].
  apply (create_connection_awaited env
           (MkState (entered env kw (self st)) (io st)) coro Hn H).
Qed.

Lemma connect_opens_target_witness :
  targets (entered env_ready no_kwargs fresh.(self)) coro_localhost
  /\ targets (entered env_ready kw_via_socket fresh.(self)) coro_socket.
Proof.
  split.
  - apply (connect_opens_target env_ready no_kwargs fresh coro_localhost);
      awaited.
  - apply (connect_opens_target env_ready kw_via_socket fresh coro_socket);
      awaited.
Defined.

(** X2: whatever [connect] asks the event loop to open, TLS is applied to
    the open exactly when [use_tls] is stored.  Without it the open gets no
    context and no handshake timeout, even if [start_tls] or certificate
    options are set.  With it the handshake timeout is the connect timeout,
    and the context is the stored [tls_context] as it is or, if there is
    none, one built with hostname checking equal to [validate_certs],
    verification required exactly when [validate_certs] holds, and the
    stored certificate bundle and client certificate loaded. *)
Theorem connect_tls_arguments (env : Env) (kw : Kwargs) (st : State)
    (coro : ConnectCoro) :
  let s1 := entered env kw st.(self) in
  ~ In (EvWaitForConnection coro s1.(timeout)) st.(io) ->
  In (EvWaitForConnection coro s1.(timeout)) (snd (connect env kw st)).(io) ->
  tls_arguments s1 (fst (coro_ssl coro)) (snd (coro_ssl coro)).
Proof.
  cbv zeta. intros Hn Hin.
  destruct (connect_reaches_open env kw st coro Hn Hin) as [_ [_ H]].
  apply (create_connection_awaited env
           (MkState (entered env kw (self st)) (io st)) coro Hn H).
Qed.

Lemma connect_tls_arguments_witness :
  tls_arguments (entered env_ready kw_direct_tls fresh.(self))
    (Some (MkSSLContext true CERT_REQUIRED None None)) (Some DEFAULT_TIMEOUT)
  /\ tls_arguments (entered env_ready kw_upgrade_tls fresh.(self)) None None.
Proof.
  split.
  - apply (connect_tls_arguments env_ready kw_direct_tls fresh
             coro_localhost_tls); awaited.
  - apply (connect_tls_arguments env_ready kw_upgrade_tls fresh
             (create_connection_host "localhost" 587 None None None)); awaited.
Defined.

Lemma loop_entered (env : Env) (kw : Kwargs) (s : SMTPConnection) :
  (entered env kw s).(loop) = Some env.(get_running_loop).
Proof.
  unfold entered.
  set (s1 := set_connect_lock (Some (MkLock true)) (prepared env kw s)).
  assert (H1 : loop s1 = Some (get_running_loop env)).
  { unfold s1, prepared. cbv zeta. destruct (is_not_None _); reflexivity. }
  unfold set_default_port.
  destruct (port s1), (sock s1), (socket_path s1); try exact H1.
  destruct (use_tls s1); [exact H1|].
  destruct (truthy_opt_bool (_start_tls_on_connect s1)); exact H1.
Qed.

(** Once the open has returned a transport, [_create_connection] ends with
    it bound, whether it returns or raises. *)
Lemma connect_open_bound (env : Env) (kw : Kwargs) (st : State)
    (coro : ConnectCoro) (tr : Transport) :
  let s1 := entered env kw st.(self) in
  ~ In (EvWaitForConnection coro s1.(timeout)) st.(io) ->
  In (EvWaitForConnection coro s1.(timeout)) (snd (connect env kw st)).(io) ->
  env.(wait_for_connection) coro s1.(timeout) = inr tr ->
  _validate_config (_update_settings_from_kwargs kw st.(self)) = None
  /\ lock_held st.(self) = false
  /\ (snd (_create_connection env (MkState s1 st.(io)))).(self)
     = set_transport (Some tr)
         (set_protocol (Some (MkSMTPProtocol env.(get_running_loop))) s1).
Proof.
  cbv zeta. intros Hn Hin Hw.
  destruct (connect_reaches_open env kw st coro Hn Hin) as [Hv [Hl H]].
  destruct (create_connection_awaited env
              (MkState (entered env kw (self st)) (io st)) coro Hn H)
    as [_ [_ Hb]].
  unfold bound_after_open in Hb. cbn [self io] in Hb.
  rewrite Hw, loop_entered in Hb. auto.
Qed.



(** X16: after a [connect] that returned, [get_transport_info] reports what
    the transport the open returned says under the key, and changes
    nothing. *)
Theorem get_transport_info_after_connect (env env' : Env) (kw : Kwargs)
    (st : State) (coro : ConnectCoro) (tr : Transport) (key : string)
    (r : SMTPResponse) (st' : State) :
  let s1 := entered env kw st.(self) in
  ~ In (EvWaitForConnection coro s1.(timeout)) st.(io) ->
  In (EvWaitForConnection coro s1.(timeout)) (snd (connect env kw st)).(io) ->
  env.(wait_for_connection) coro s1.(timeout) = inr tr ->
  connect env kw st = (Returned r, st') ->
  get_transport_info env' key st'
  = (Returned (env'.(get_extra_info) tr key), st').
Proof.
  cbv zeta. intros Hn Hin Hw Hc.
  destruct (@connect_open_bound env kw st coro tr Hn Hin Hw) as [Hv [Hl Hb]].
  rewrite connect_eq in Hc. cbv zeta in Hc.
  rewrite Hv, lock_held_merge, Hl in Hc.
  destruct (_create_connection env _) as [[r0|e|] st0]; try discriminate Hc.
  inversion Hc; subst r0 st0. simpl in Hb.
  unfold get_transport_info, bind, get_self, ret. cbn [self].
  rewrite Hb. reflexivity.
Qed.

Lemma get_transport_info_after_connect_witness :
  get_transport_info env_ready "peername" connected
  = (Returned (env_ready.(get_extra_info) (MkTransport 7 false) "peername"),
     connected).
Proof.
  apply (@get_transport_info_after_connect env_ready env_ready no_kwargs fresh
           coro_localhost (MkTransport 7 false) "peername"
           (MkSMTPResponse 220 "mail.example.org ESMTP")).
  - awaited.
  - awaited.
  - reflexivity.
  - vm_compute. reflexivity.
Defined.

(** ** Failures before the open *)

Lemma create_connection_tls_load_fails (env : Env) (st : State)
    (lp : EventLoop) (exc : PyExc) :
  st.(self).(loop) = Some lp ->
  st.(self).(use_tls) = true ->
  tls_load_fails env st.(self) exc ->
  exists evs,
    _create_connection env st
    = (Raised (PyException exc), MkState st.(self) (st.(io) ++ evs))
    /\ forallb is_load_event evs = true.
Proof.
  destruct st as [s l]. simpl. intros Hlp Htls [Hctx Hf].
  unfold _create_connection, _get_tls_context, bind, get_self, modify, emit,
    ret, raise; simpl.
  rewrite Hlp, Htls. simpl. rewrite Hctx.
  destruct (cert_bundle s) as [cafile|]; simpl.
  - destruct Hf as [Hf | [Hok [certfile [Hc Hf]]]].
    + rewrite Hf. eexists. split; reflexivity.
    + rewrite Hok. simpl. rewrite Hc. simpl. rewrite Hf.
      eexists. split; [rewrite <- app_assoc; reflexivity | reflexivity].
  - destruct Hf as [certfile [Hc Hf]]. rewrite Hc. simpl. rewrite Hf.
    eexists. split; reflexivity.
Qed.

Lemma tls_load_fails_entered (env : Env) (kw : Kwargs) (s : SMTPConnection)
    (exc : PyExc) :
  tls_load_fails env (_update_settings_from_kwargs kw s) exc ->
  tls_load_fails env (entered env kw s) exc.
Proof.
  pose proof (same_settings_entered env kw s) as H.
  unfold same_settings in H. decompose [and] H. clear H.
  unfold tls_load_fails.
  repeat match goal with
         | E : ?f (entered env kw s) = _ |- _ => rewrite E; clear E
         end.
  auto.
Qed.

Lemma not_load_event_wait (evs : list IOEvent) (coro : ConnectCoro)
    (t : option Q) :
  forallb is_load_event evs = true ->
  ~ In (EvWaitForConnection coro t) evs.
Proof.
  intros Hall Hin. rewrite forallb_forall in Hall.
  specialize (Hall _ Hin). discriminate Hall.
Qed.

(** X4: with [use_tls] and no stored context, when the certificate bundle
    or the client certificate cannot be loaded, [connect] raises the
    exception of the load as it is (not wrapped in a connect error), never
    asks the loop to open anything, and leaves the instance disconnected
    with the connect lock released. *)
Theorem connect_tls_load_failure (env : Env) (kw : Kwargs) (st : State)
    (exc : PyExc) :
  let m := _update_settings_from_kwargs kw st.(self) in
  _validate_config m = None ->
  lock_held st.(self) = false ->
  m.(use_tls) = true ->
  tls_load_fails env m exc ->
  fst (connect env kw st) = Raised (PyException exc)
  /\ Disconnected (snd (connect env kw st)).(self)
  /\ lock_held (snd (connect env kw st)).(self) = false
  /\ forall coro t,
       ~ In (EvWaitForConnection coro t) st.(io) ->
       ~ In (EvWaitForConnection coro t) (snd (connect env kw st)).(io).
Proof.
  cbv zeta. intros Hv Hl Htls Hf.
  rewrite connect_eq. cbv zeta. rewrite Hv, lock_held_merge, Hl.
  assert (Hu : use_tls (entered env kw (self st)) = true).
  { pose proof (same_settings_entered env kw (self st)) as H.
    unfold same_settings in H. decompose [and] H. congruence. }
  destruct (@create_connection_tls_load_fails env
              (MkState (entered env kw (self st)) (io st)) _ exc
              (loop_entered env kw (self st)) Hu
              (@tls_load_fails_entered env kw (self st) exc Hf))
    as [evs [Hc Hall]].
  rewrite Hc. cbn [fst snd self io].
  split; [reflexivity|].
  split; [apply close_disconnects|].
  split; [apply close_disconnects|].
  intros coro t Hn Hin. rewrite close_eq in Hin. cbn [snd self io] in Hin.
  apply in_log_after_close in Hin. apply in_app_or in Hin.
  destruct Hin as [Hin | Hin]; [exact (Hn Hin)|].
  exact (@not_load_event_wait evs coro t Hall Hin).
Qed.

Lemma connect_tls_load_failure_witness :
  fst (connect env_no_certificates kw_tls_with_bundle fresh)
  = Raised (PyException exc_file_not_found)
  /\ Disconnected (snd (connect env_no_certificates kw_tls_with_bundle fresh)).(self)
  /\ (snd (connect env_no_certificates kw_tls_with_bundle fresh)).(io)
     = [EvLoadVerifyLocations "/etc/ssl/missing.pem"].
Proof.
  destruct (@connect_tls_load_failure env_no_certificates kw_tls_with_bundle
              fresh exc_file_not_found eq_refl eq_refl eq_refl)
    as [H1 [H2 _]].
  - split; [reflexivity | left; reflexivity].
  - split; [exact H1 | split; [exact H2 | vm_compute; reflexivity]].
Defined.

Lemma connect_coro_missing_target (s : SMTPConnection)
    (ssl : option SSLContext) (hto : option Q) (msg : string) (st : State) :
  s.(sock) = None ->
  truthy_opt_path s.(socket_path) = false ->
  match s.(hostname), s.(port) with
  | None, _ => Some "No hostname provided; default should have been set"
  | Some _, None => Some "No port provided; default should have been set"
  | Some _, Some _ => None
  end = Some msg ->
  connect_coro s ssl hto st = (Raised (RuntimeError msg), st).
Proof.
  intros Hsock Hpath Hm. unfold connect_coro, connect_coro_host, raise.
  rewrite Hsock.
  destruct (socket_path s) as [path|]; simpl in Hpath; rewrite ?Hpath;
    destruct (hostname s) as [h|]; try destruct (port s) as [p|];
    inversion Hm; reflexivity.
Qed.

(** [_get_tls_context] either returns, or raises the exception of a load
    that failed; it reads certificate files and does nothing else. *)
Lemma get_tls_context_cases (env : Env) (st : State) :
  exists evs,
    snd (_get_tls_context env st) = MkState st.(self) (st.(io) ++ evs)
    /\ forallb is_load_event evs = true
    /\ match fst (_get_tls_context env st) with
       | Returned _ => True
       | Raised e => exists exc, e = PyException exc /\ tls_load_fails env st.(self) exc
       | Blocked => False
       end.
Proof.
  destruct st as [s l].
  unfold _get_tls_context, tls_load_fails, bind, get_self, emit, ret, raise;
    simpl.
  destruct (tls_context s) as [ctx|]; simpl.
  { exists []. rewrite app_nil_r. repeat split. }
  destruct (cert_bundle s) as [cafile|]; simpl.
  - destruct (load_verify_locations env cafile) as [e|] eqn:Hb; simpl.
    + eexists. split; [reflexivity|]. split; [reflexivity|].
      exists e. split; [reflexivity|]. split; [reflexivity|]. left. reflexivity.
    + destruct (client_cert s) as [certfile|]; simpl.
      * destruct (load_cert_chain env certfile (client_key s)) as [e|] eqn:Hc;
          simpl.
        -- eexists. split; [rewrite <- app_assoc; reflexivity|].
           split; [reflexivity|].
           exists e. split; [reflexivity|]. split; [reflexivity|].
           right. split; [reflexivity|]. exists certfile. split; [reflexivity | exact Hc].
        -- eexists. split; [rewrite <- app_assoc; reflexivity|].
           split; reflexivity || exact I.
      * eexists. split; [reflexivity|]. split; reflexivity || exact I.
  - destruct (client_cert s) as [certfile|]; simpl.
    + destruct (load_cert_chain env certfile (client_key s)) as [e|] eqn:Hc;
        simpl.
      * eexists. split; [reflexivity|]. split; [reflexivity|].
        exists e. split; [reflexivity|]. split; [reflexivity|].
        exists certfile. split; [reflexivity | exact Hc].
      * eexists. split; [reflexivity|]. split; reflexivity || exact I.
    + exists []. rewrite app_nil_r. repeat split.
Qed.

(** With nothing to connect to, [_create_connection] raises before it
    awaits anything: the [RuntimeError] of the missing target, or, with
    [use_tls], the exception of a certificate load that failed first. *)
Lemma create_connection_missing_target (env : Env) (st : State)
    (lp : EventLoop) (msg : string) :
  st.(self).(loop) = Some lp ->
  st.(self).(sock) = None ->
  truthy_opt_path st.(self).(socket_path) = false ->
  match st.(self).(hostname), st.(self).(port) with
  | None, _ => Some "No hostname provided; default should have been set"
  | Some _, None => Some "No port provided; default should have been set"
  | Some _, Some _ => None
  end = Some msg ->
  exists e evs,
    _create_connection env st = (Raised e, MkState st.(self) (st.(io) ++ evs))
    /\ forallb is_load_event evs = true
    /\ (e = RuntimeError msg
        \/ (st.(self).(use_tls) = true
            /\ exists exc, e = PyException exc /\ tls_load_fails env st.(self) exc))
    /\ (st.(self).(use_tls) = false -> e = RuntimeError msg /\ evs = []).
Proof.
  destruct st as [s l]. cbn [self io]. intros Hlp Hsock Hpath Hm.
  pose proof (fun ssl hto st' =>
                @connect_coro_missing_target s ssl hto msg st' Hsock Hpath Hm)
    as Hcoro.
  unfold _create_connection, bind, get_self, ret.
  cbn -[_get_tls_context connect_coro]. rewrite Hlp.
  destruct (use_tls s) eqn:Htls.
  - destruct (get_tls_context_cases env (MkState s l)) as [evs [Hs [Hall Ho]]].
    destruct (_get_tls_context env (MkState s l)) as [[ctx|e|] st1];
      cbn [fst snd self io] in Hs, Ho.
    + subst st1. cbn -[connect_coro]. rewrite Hcoro.
      exists (RuntimeError msg), evs.
      split; [reflexivity|]. split; [exact Hall|].
      split; [left; reflexivity | discriminate].
    + subst st1. destruct Ho as [exc [-> Hf]].
      exists (PyException exc), evs.
      split; [reflexivity|]. split; [exact Hall|].
      split; [right; split; [reflexivity|]; exists exc; split; [reflexivity | exact Hf]
             | discriminate].
    + contradiction.
  - cbn -[connect_coro]. rewrite Hcoro.
    exists (RuntimeError msg), [].
    rewrite app_nil_r.
    split; [reflexivity|]. split; [reflexivity|].
    split; [left; reflexivity | intros _; split; reflexivity].
Qed.

Lemma missing_target_entered (env : Env) (kw : Kwargs) (s : SMTPConnection)
    (msg : string) :
  missing_target (_update_settings_from_kwargs kw s) = Some msg ->
  (entered env kw s).(sock) = None
  /\ truthy_opt_path (entered env kw s).(socket_path) = false
  /\ match (entered env kw s).(hostname), (entered env kw s).(port) with
     | None, _ => Some "No hostname provided; default should have been set"
     | Some _, None => Some "No port provided; default should have been set"
     | Some _, Some _ => None
     end = Some msg.
Proof.
  pose proof (same_settings_entered env kw s) as H.
  unfold same_settings in H. decompose [and] H. clear H.
  rewrite port_after_connect_prepared.
  repeat match goal with
         | E : ?f (entered env kw s) = _ |- _ => rewrite E; clear E
         end.
  unfold missing_target.
  destruct (sock (_update_settings_from_kwargs kw s)); simpl; [discriminate|].
  destruct (truthy_opt_path (socket_path (_update_settings_from_kwargs kw s)));
    [discriminate|].
  intros Hm. split; [reflexivity|]. split; [reflexivity | exact Hm].
Qed.

(** X5: validation accepts configurations that name nothing to connect to
    (no socket, no non-empty socket path, and no hostname, or a hostname with
    no port and a port that [connect] does not default because an empty
    socket path is stored); [connect] then fails inside, before anything is
    opened.  For a merged configuration that validation accepts and that
    names no target, on an instance whose lock is free: [connect] raises the
    [RuntimeError] of what is missing ("No hostname provided" or "No port
    provided"), unless [use_tls] is set and loading its certificates fails
    first, in which case it raises the exception of the load; it raises the
    [RuntimeError] whenever [use_tls] is not set or no load fails.  Either
    way the loop is asked to open nothing and the instance ends as [close]
    leaves it, disconnected with the lock released; without [use_tls] the
    whole result is that of [close] after the raise. *)
Theorem connect_without_target (env : Env) (kw : Kwargs) (st : State)
    (msg : string) :
  let m := _update_settings_from_kwargs kw st.(self) in
  _validate_config m = None ->
  lock_held st.(self) = false ->
  missing_target m = Some msg ->
  (fst (connect env kw st) = Raised (RuntimeError msg)
   \/ (m.(use_tls) = true
       /\ exists exc,
            tls_load_fails env m exc
            /\ fst (connect env kw st) = Raised (PyException exc)))
  /\ (m.(use_tls) = false \/ (forall exc, ~ tls_load_fails env m exc) ->
      fst (connect env kw st) = Raised (RuntimeError msg))
  /\ (snd (connect env kw st)).(self)
     = (snd (close (MkState (entered env kw st.(self)) st.(io)))).(self)
  /\ Disconnected (snd (connect env kw st)).(self)
  /\ lock_held (snd (connect env kw st)).(self) = false
  /\ (forall coro t,
        ~ In (EvWaitForConnection coro t) st.(io) ->
        ~ In (EvWaitForConnection coro t) (snd (connect env kw st)).(io))
  /\ (m.(use_tls) = false ->
      connect env kw st
      = (Raised (RuntimeError msg),
         snd (close (MkState (entered env kw st.(self)) st.(io))))).
Proof.
  cbv zeta. intros Hv Hl Hm.
  destruct (@missing_target_entered env kw (self st) msg Hm)
    as [Hsock [Hpath Hhp]].
  assert (Hu : use_tls (entered env kw (self st))
               = use_tls (_update_settings_from_kwargs kw (self st))).
  { pose proof (same_settings_entered env kw (self st)) as H.
    unfold same_settings in H. decompose [and] H. assumption. }
  destruct (@create_connection_missing_target env
              (MkState (entered env kw (self st)) (io st)) _ msg
              (loop_entered env kw (self st)) Hsock Hpath Hhp)
    as [e [evs [Hc [Hall [He Hplain]]]]].
  cbn [self io] in Hc, He, Hplain. rewrite Hu in He, Hplain.
  assert (Hf : forall exc,
             tls_load_fails env (entered env kw (self st)) exc ->
             tls_load_fails env (_update_settings_from_kwargs kw (self st)) exc).
  { pose proof (same_settings_entered env kw (self st)) as H.
    unfold same_settings in H. decompose [and] H. clear H.
    unfold tls_load_fails. intros exc.
    repeat match goal with
           | E : ?f (entered env kw (self st)) = _ |- _ => rewrite E; clear E
           end.
    auto. }
  rewrite connect_eq. cbv zeta. rewrite Hv, lock_held_merge, Hl, Hc.
  cbn [fst snd].
  split; [| split; [| split; [| split; [| split; [| split]]]]].
  - destruct He as [-> | [Ht [exc [-> Hx]]]]; [left; reflexivity|].
    right. split; [exact Ht|]. exists exc. split; [apply Hf, Hx | reflexivity].
  - intros Hno. destruct He as [-> | [Ht [exc [-> Hx]]]]; [reflexivity|].
    destruct Hno as [Hno | Hno]; [congruence|].
    destruct (Hno exc (Hf exc Hx)).
  - rewrite !close_eq. reflexivity.
  - apply close_disconnects.
  - apply close_disconnects.
  - intros coro t Hn Hin. rewrite close_eq in Hin. cbn [snd self io] in Hin.
    apply in_log_after_close in Hin. apply in_app_or in Hin.
    destruct Hin as [Hin | Hin]; [exact (Hn Hin)|].
    exact (@not_load_event_wait evs coro t Hall Hin).
  - intros Ht. destruct (Hplain Ht) as [-> ->]. rewrite app_nil_r. reflexivity.
Qed.

Lemma connect_without_target_witness :
  fst (connect env_ready kw_no_hostname fresh)
  = Raised (RuntimeError "No hostname provided; default should have been set")
  /\ fst (connect env_ready kw_empty_socket_path fresh)
     = Raised (RuntimeError "No port provided; default should have been set")
  /\ fst (connect env_ready kw_tls_no_hostname fresh)
     = Raised (RuntimeError "No hostname provided; default should have been set")
  /\ (snd (connect env_ready kw_no_hostname fresh)).(io) = []
  /\ fst (connect env_no_certificates kw_tls_bundle_no_hostname fresh)
     = Raised (PyException exc_file_not_found)
  /\ Disconnected
       (snd (connect env_no_certificates kw_tls_bundle_no_hostname fresh)).(self)
  /\ lock_held
       (snd (connect env_no_certificates kw_tls_bundle_no_hostname fresh)).(self)
     = false.
Proof.
  destruct (@connect_without_target env_ready kw_no_hostname fresh
              "No hostname provided; default should have been set"
              eq_refl eq_refl eq_refl) as [_ [H1 _]].
  destruct (@connect_without_target env_ready kw_empty_socket_path fresh
              "No port provided; default should have been set"
              eq_refl eq_refl eq_refl) as [_ [H2 _]].
  destruct (@connect_without_target env_ready kw_tls_no_hostname fresh
              "No hostname provided; default should have been set"
              eq_refl eq_refl eq_refl) as [_ [H3 _]].
  destruct (@connect_without_target env_no_certificates
              kw_tls_bundle_no_hostname fresh
              "No hostname provided; default should have been set"
              eq_refl eq_refl eq_refl) as [_ [_ [_ [H4 [H5 _]]]]].
  split; [exact (H1 (or_introl eq_refl))|].
  split; [exact (H2 (or_introl eq_refl))|].
  split; [| split; [vm_compute; reflexivity|]].
  - apply H3. right. intros exc [_ Hx].
    destruct Hx as [certfile [Hx _]]. discriminate Hx.
  - split; [vm_compute; reflexivity|]. split; [exact H4 | exact H5].
Defined.

Lemma create_connection_plaintext_log (env : Env) (st : State) :
  st.(self).(use_tls) = false ->
  exists evs,
    (snd (_create_connection env st)).(io) = st.(io) ++ evs
    /\ forallb (fun ev => negb (is_load_event ev)) evs = true.
Proof.
  destruct st as [s l]. simpl. intros Htls.
  unfold _create_connection, connect_coro, connect_coro_host,
    bind, get_self, modify, emit, ret, raise; simpl.
  rewrite Htls.
  repeat (break_match; simpl in * );
    first [ exists []; split; [rewrite app_nil_r; reflexivity | reflexivity]
          | eexists; split; [rewrite <- ?app_assoc; reflexivity | reflexivity] ].
Qed.

Lemma in_log_after_close_inv (s : SMTPConnection) (l : list IOEvent)
    (ev : IOEvent) :
  In ev (log_after_close s l) ->
  In ev l \/ exists id, ev = EvTransportClose id.
Proof.
  unfold log_after_close. destruct (transport s) as [[id [|]]|]; auto.
  rewrite in_app_iff. simpl. intros [H | [H | []]]; [left; exact H|].
  right. exists id. symmetry. exact H.
Qed.

(** X15: a [connect] without [use_tls] reads no certificate file, whatever
    certificate options are stored and however it ends. *)
Theorem connect_plaintext_reads_no_files (env : Env) (kw : Kwargs) (st : State)
    (ev : IOEvent) :
  (_update_settings_from_kwargs kw st.(self)).(use_tls) = false ->
  is_load_event ev = true ->
  ~ In ev st.(io) ->
  ~ In ev (snd (connect env kw st)).(io).
Proof.
  intros Htls Hev Hn. rewrite connect_eq. cbv zeta.
  destruct (_validate_config _); [exact Hn|].
  destruct (lock_held _); [exact Hn|].
  assert (Hu : use_tls (entered env kw (self st)) = false).
  { pose proof (same_settings_entered env kw (self st)) as H.
    unfold same_settings in H. decompose [and] H. congruence. }
  destruct (@create_connection_plaintext_log env
              (MkState (entered env kw (self st)) (io st)) Hu)
    as [evs [Hio Hall]].
  cbn [self io] in Hio.
  assert (Hnew : ~ In ev (io (snd (_create_connection env
                    (MkState (entered env kw (self st)) (io st)))))).
  { rewrite Hio. intros Hin. apply in_app_or in Hin.
    destruct Hin as [Hin | Hin]; [exact (Hn Hin)|].
    rewrite forallb_forall in Hall. specialize (Hall _ Hin).
    rewrite Hev in Hall. discriminate Hall. }
  destruct (_create_connection env _) as [[r|e|] st']; cbn [snd] in *;
    try exact Hnew.
  rewrite close_eq. cbn [snd io]. intros Hin.
  apply in_log_after_close_inv in Hin.
  destruct Hin as [Hin | [id Hid]]; [exact (Hnew Hin)|].
  subst ev. discriminate Hev.
Qed.

Lemma connect_plaintext_reads_no_files_witness :
  fst (connect env_no_certificates no_kwargs fresh)
  = Returned (MkSMTPResponse 220 "mail.example.org ESMTP")
  /\ ~ In (EvLoadVerifyLocations "/etc/ssl/missing.pem")
         (snd (connect env_no_certificates no_kwargs fresh)).(io).
Proof.
  split; [vm_compute; reflexivity|].
  apply (@connect_plaintext_reads_no_files env_no_certificates no_kwargs fresh
           (EvLoadVerifyLocations "/etc/ssl/missing.pem"));
    [reflexivity | reflexivity | intros []].
Defined.

(** ** Commands, resets and reconnection *)

Lemma execute_command_disconnected (env : Env) (args : list string)
    (timeout_arg : Default (option Q)) (st : State) :
  st.(self).(protocol) = None ->
  execute_command env args timeout_arg st
  = (Raised (SMTPServerDisconnected "Server not connected"), st).
Proof. intros H. rewrite execute_command_eq, H. reflexivity. Qed.

Lemma connect_returned_bound (env : Env) (kw : Kwargs) (st : State)
    (r : SMTPResponse) (st' : State) :
  connect env kw st = (Returned r, st') ->
  exists p, st'.(self).(protocol) = Some p.
Proof.
  rewrite connect_eq. cbv zeta.
  destruct (_validate_config _); [discriminate|].
  destruct (lock_held _); [discriminate|].
  pose proof (create_connection_cases env
                (MkState (entered env kw (self st)) (io st))) as Hc.
  destruct (_create_connection env _) as [[r0|e|] st0]; try discriminate.
  intros H. inversion H; subst. destruct Hc as [_ [_ [[p [t Hs]] _]]].
  rewrite Hs. eexists. reflexivity.
Qed.

(** X7: closing and connecting again.  After [close], from any state, a
    command fails at once with [SMTPServerDisconnected] and no I/O, and a
    [connect] does not wait for the lock; and after any [connect] that
    returned, a command reaches the engine again: its outcome is the
    engine's answer. *)
Theorem close_then_reconnect (env env' : Env) (kw : Kwargs)
    (args : list string) (timeout_arg : Default (option Q)) (st : State) :
  execute_command env' args timeout_arg (snd (close st))
  = (Raised (SMTPServerDisconnected "Server not connected"), snd (close st))
  /\ is_Blocked (fst (connect env kw (snd (close st)))) = false
  /\ forall r st',
       connect env kw (snd (close st)) = (Returned r, st') ->
       fst (execute_command env' args timeout_arg st')
       = match env'.(protocol_execute_command) args
                 (command_timeout timeout_arg st'.(self)) with
         | inl e => Raised e
         | inr response => Returned response
         end.
Proof.
  split; [| split].
  - apply execute_command_disconnected. apply close_disconnects.
  - apply connect_acquires. apply close_disconnects.
  - intros r st' Hc. destruct (connect_returned_bound _ _ _ Hc) as [p Hp].
    rewrite execute_command_eq, Hp.
    destruct (protocol_execute_command env' args _) as [e|r0]; [reflexivity|].
    destruct (code r0 =? SMTPStatus_domain_unavailable)%Z; reflexivity.
Qed.

Lemma close_then_reconnect_witness :
  fst (execute_command env_ready ["NOOP"] _default (snd (close connected)))
  = Raised (SMTPServerDisconnected "Server not connected")
  /\ fst (execute_command env_ready ["NOOP"] _default
            (snd (connect env_ready no_kwargs (snd (close connected)))))
     = Returned (MkSMTPResponse 250 "OK").
Proof.
  destruct (close_then_reconnect env_ready env_ready no_kwargs ["NOOP"]
              _default connected) as [H1 [_ H3]].
  split.
  - rewrite H1. reflexivity.
  - rewrite (H3 (MkSMTPResponse 220 "mail.example.org ESMTP")
               (snd (connect env_ready no_kwargs (snd (close connected)))));
      [reflexivity | vm_compute; reflexivity].
Defined.

(** X8: after a command was answered with 421, the instance can be used
    again at once: the connect lock is released, a [connect] does not wait,
    and until then every command fails with [SMTPServerDisconnected] without
    touching the engine. *)
Theorem reusable_after_421 (env env' : Env) (kw' : Kwargs)
    (args args' : list string) (timeout_arg timeout_arg' : Default (option Q))
    (st st' : State) (r : SMTPResponse) :
  execute_command env args timeout_arg st = (Returned r, st') ->
  r.(code) = 421 ->
  lock_held st'.(self) = false
  /\ is_Blocked (fst (connect env' kw' st')) = false
  /\ execute_command env' args' timeout_arg' st'
     = (Raised (SMTPServerDisconnected "Server not connected"), st').
Proof.
  intros H Hc. rewrite execute_command_eq in H.
  destruct (protocol (self st)); [| discriminate H].
  destruct (protocol_execute_command env args _) as [e|r0]; [discriminate H|].
  unfold SMTPStatus_domain_unavailable in H.
  destruct (code r0 =? 421)%Z eqn:E; inversion H; subst r0 st'; clear H.
  - destruct (close_disconnects (command_sent args timeout_arg st)) as [Hd Hl].
    split; [exact Hl|]. split; [apply connect_acquires, Hl|].
    apply execute_command_disconnected, Hd.
  - apply Z.eqb_neq in E. contradiction.
Qed.

Lemma reusable_after_421_witness :
  lock_held connected.(self) = true
  /\ lock_held
       (snd (execute_command env_shutting_down ["NOOP"] _default connected)).(self)
     = false
  /\ is_Blocked
       (fst (connect env_ready no_kwargs
               (snd (execute_command env_shutting_down ["NOOP"] _default
                       connected))))
     = false.
Proof.
  assert (E : execute_command env_shutting_down ["NOOP"] _default connected
              = (Returned (MkSMTPResponse 421 "shutting down"),
                 snd (execute_command env_shutting_down ["NOOP"] _default
                        connected)))
    by (vm_compute; reflexivity).
  destruct (@reusable_after_421 env_shutting_down env_ready no_kwargs ["NOOP"]
              ["NOOP"] _default _default connected _ _ E eq_refl)
    as [H1 [H2 _]].
  split; [vm_compute; reflexivity | split; [exact H1 | exact H2]].
Defined.

(** X9: the engine's callback resets the instance only for a connection
    lost with an error or by cancellation: then it returns leaving the
    instance disconnected and the connect lock released, so that a
    [connect] does not wait.  For a connection that ended cleanly it does
    nothing at all: engine, transport and lock stay as they were. *)
Theorem connection_lost_callback (waiter : Waiter) (st : State) (env : Env)
    (kw : Kwargs) :
  (waiter.(cancelled) = false -> waiter.(exception) = None ->
   _connection_lost waiter st = (Returned tt, st))
  /\ (waiter.(cancelled) = true \/ waiter.(exception) <> None ->
      fst (_connection_lost waiter st) = Returned tt
      /\ Disconnected (snd (_connection_lost waiter st)).(self)
      /\ lock_held (snd (_connection_lost waiter st)).(self) = false
      /\ is_Blocked (fst (connect env kw (snd (_connection_lost waiter st))))
         = false).
Proof.
  rewrite connection_lost_resets. split.
  - intros -> ->. reflexivity.
  - intros H.
    assert (Hb : cancelled waiter || is_not_None (exception waiter) = true).
    { destruct H as [-> | H]; [reflexivity|].
      destruct (exception waiter); [apply orb_true_r | contradiction]. }
    rewrite Hb. destruct (close_disconnects st) as [Hd Hl].
    split; [rewrite close_eq; reflexivity|].
    split; [exact Hd|]. split; [exact Hl|].
    apply connect_acquires, Hl.
Qed.

Lemma connection_lost_callback_witness :
  _connection_lost (MkWaiter false None) connected = (Returned tt, connected)
  /\ lock_held connected.(self) = true
  /\ Disconnected
       (snd (_connection_lost
               (MkWaiter false (Some (MkPyExc true false "Connection reset by peer")))
               connected)).(self).
Proof.
  destruct (connection_lost_callback (MkWaiter false None) connected env_ready
              no_kwargs) as [H1 _].
  destruct (connection_lost_callback
              (MkWaiter false (Some (MkPyExc true false "Connection reset by peer")))
              connected env_ready no_kwargs) as [_ H2].
  split; [apply H1; reflexivity|].
  split; [vm_compute; reflexivity|].
  apply H2. right. discriminate.
Defined.

(** ** Settings *)

(** X10: the settings of a [connect] that validation refuses are stored all
    the same: the merge is not undone.  The call leaves engine, transport,
    lock and log untouched, and a following [connect()] that passes nothing
    is refused with the same error and changes nothing. *)
Theorem refused_connect_stores_settings (env env' : Env) (kw : Kwargs)
    (st : State) :
  let st' := snd (connect env kw st) in
  rejected (_update_settings_from_kwargs kw st.(self)) = true ->
  st'.(self) = _update_settings_from_kwargs kw st.(self)
  /\ st'.(self).(protocol) = st.(self).(protocol)
  /\ st'.(self).(transport) = st.(self).(transport)
  /\ st'.(self).(_connect_lock) = st.(self).(_connect_lock)
  /\ st'.(io) = st.(io)
  /\ connect env' no_kwargs st' = (fst (connect env kw st), st').
Proof.
  cbv zeta. intros Hr.
  destruct (validate_config_rejected _ Hr) as [msg Hv].
  assert (Hc : connect env kw st
               = (Raised (ValueError msg),
                  MkState (_update_settings_from_kwargs kw (self st)) (io st))).
  { rewrite connect_eq. cbv zeta. rewrite Hv. reflexivity. }
  rewrite Hc. cbn [fst snd self io].
  split; [reflexivity|].
  split; [apply merge_protocol|].
  split; [apply merge_transport|].
  split; [apply merge_connect_lock|].
  split; [reflexivity|].
  rewrite connect_eq. cbv zeta. cbn [self io].
  rewrite update_settings_no_kwargs, Hv. reflexivity.
Qed.

Lemma refused_connect_stores_settings_witness :
  (snd (connect env_ready kw_hostname_injection connected)).(self).(protocol)
  = connected.(self).(protocol)
  /\ (snd (connect env_ready kw_hostname_injection connected)).(self).(hostname)
     <> connected.(self).(hostname)
  /\ connect env_ready no_kwargs
       (snd (connect env_ready kw_hostname_injection connected))
     = (fst (connect env_ready kw_hostname_injection connected),
        snd (connect env_ready kw_hostname_injection connected)).
Proof.
  assert (Hr : rejected
                 (_update_settings_from_kwargs kw_hostname_injection
                    connected.(self)) = true)
    by (vm_compute; reflexivity).
  destruct (@refused_connect_stores_settings env_ready env_ready
              kw_hostname_injection connected Hr)
    as [_ [H2 [_ [_ [_ H6]]]]].
  split; [exact H2 | split; [vm_compute; discriminate | exact H6]].
Defined.

Lemma SMTPConnection_ext (s s' : SMTPConnection) :
  s.(protocol) = s'.(protocol) -> s.(transport) = s'.(transport) ->
  s.(hostname) = s'.(hostname) -> s.(port) = s'.(port) ->
  s.(_login_username) = s'.(_login_username) ->
  s.(_login_password) = s'.(_login_password) ->
  s.(_local_hostname) = s'.(_local_hostname) -> s.(timeout) = s'.(timeout) ->
  s.(use_tls) = s'.(use_tls) ->
  s.(_start_tls_on_connect) = s'.(_start_tls_on_connect) ->
  s.(validate_certs) = s'.(validate_certs) ->
  s.(client_cert) = s'.(client_cert) -> s.(client_key) = s'.(client_key) ->
  s.(tls_context) = s'.(tls_context) -> s.(cert_bundle) = s'.(cert_bundle) ->
  s.(socket_path) = s'.(socket_path) -> s.(sock) = s'.(sock) ->
  s.(source_address) = s'.(source_address) -> s.(loop) = s'.(loop) ->
  s.(_connect_lock) = s'.(_connect_lock) ->
  s = s'.
Proof. destruct s, s'; simpl; intros; subst; reflexivity. Qed.

Lemma merged_idem (A : Type) (x : Default A) (old : A) :
  merged x (merged x old) = merged x old.
Proof. destruct x; reflexivity. Qed.

Lemma merged_opt_idem (A : Type) (x : option A) (old : A) :
  merged_opt x (merged_opt x old) = merged_opt x old.
Proof. destruct x; reflexivity. Qed.

(** X11: merging the same arguments twice stores what merging them once
    stores: repeating a [connect] call with the arguments of the one before
    leaves every setting as it is. *)
Theorem update_settings_idempotent (kw : Kwargs) (s : SMTPConnection) :
  _update_settings_from_kwargs kw (_update_settings_from_kwargs kw s)
  = _update_settings_from_kwargs kw s.
Proof.
  apply SMTPConnection_ext;
    rewrite ?merge_protocol, ?merge_transport, ?merge_hostname, ?merge_port,
      ?merge_login_username, ?merge_login_password, ?merge_local_hostname,
      ?merge_timeout, ?merge_use_tls, ?merge_start_tls, ?merge_validate_certs,
      ?merge_client_cert, ?merge_client_key, ?merge_tls_context,
      ?merge_cert_bundle, ?merge_socket_path, ?merge_sock,
      ?merge_source_address, ?merge_loop, ?merge_connect_lock,
      ?merged_idem, ?merged_opt_idem;
    try reflexivity.
  - unfold merged_local_hostname.
    destruct (kw_source_address kw) as [|[[h p|str]|]];
      try reflexivity; apply merged_idem.
  - unfold merged_source_address.
    destruct (kw_source_address kw) as [|[[h p|str]|]]; reflexivity.
Qed.

(** X12: a [source_address] given as a string is treated as the local
    hostname, and the guard against line breaks covers it.  At
    construction, a non-empty string ends up as [_local_hostname] with no
    source address stored, and [__init__] raises [ValueError] if it contains
    a carriage return or a line feed; at [connect], a string containing one
    makes validation refuse the merged configuration. *)
Theorem source_address_string_is_local_hostname (a : InitArgs) (kw : Kwargs)
    (s : SMTPConnection) (str : string) :
  (a.(arg_source_address) = Some (SrcStr str) -> truthy_str str = true ->
   (forall s', __init__ a = inr s' ->
               s'.(_local_hostname) = Some str /\ s'.(source_address) = None
               /\ has_newline (Some str) = false)
   /\ (has_newline (Some str) = true ->
       exists msg, __init__ a = inl (ValueError msg)))
  /\ (kw.(kw_source_address) = Given (Some (SrcStr str)) ->
      has_newline (Some str) = true ->
      rejected (_update_settings_from_kwargs kw s) = true).
Proof.
  split.
  - intros Ha Ht.
    assert (Hl : (init_fields a).(_local_hostname) = Some str).
    { unfold init_fields, init_source_address. simpl. rewrite Ha.
      destruct str; [discriminate Ht | reflexivity]. }
    assert (Hs : (init_fields a).(source_address) = None).
    { unfold init_fields, init_source_address. simpl. rewrite Ha.
      destruct str; [discriminate Ht | reflexivity]. }
    split.
    + intros s' Hi. unfold __init__ in Hi.
      destruct (_validate_config (init_fields a)) eqn:Hv; [discriminate Hi|].
      inversion Hi; subst s'. split; [exact Hl | split; [exact Hs|]].
      apply validate_config_None_iff in Hv. unfold rejected in Hv.
      apply orb_false_iff in Hv. destruct Hv as [Hv _].
      apply orb_false_iff in Hv. destruct Hv as [_ Hv].
      rewrite Hl in Hv. exact Hv.
    + intros Hn. unfold __init__.
      destruct (@validate_config_rejected (init_fields a)) as [msg Hv].
      * unfold rejected. rewrite Hl, Hn. rewrite orb_true_r. reflexivity.
      * rewrite Hv. eexists. reflexivity.
  - intros Hk Hn. unfold rejected.
    rewrite merge_local_hostname, Hk. simpl.
    change (has_newline (Some str)) with (char_in CR str || char_in LF str) in Hn.
    rewrite Hn. rewrite orb_true_r. reflexivity.
Qed.

Lemma source_address_string_is_local_hostname_witness :
  exists s',
    __init__ args_source_address_str = inr s'
    /\ s'.(_local_hostname) = Some "client.example.org"
    /\ s'.(source_address) = None.
Proof.
  destruct (source_address_string_is_local_hostname args_source_address_str
              no_kwargs (init_fields default_args) "client.example.org")
    as [H _].
  destruct (H eq_refl eq_refl) as [H1 _].
  exists (init_fields args_source_address_str).
  split; [reflexivity|].
  destruct (H1 _ eq_refl) as [Hl [Hs _]]. split; assumption.
Defined.

(** X13: an instance that [__init__] returned is disconnected and holds no
    lock, and its first [connect()] without arguments is neither refused by
    validation nor kept waiting: it goes on to build the connection. *)
Theorem constructed_instance_connects (a : InitArgs) (s : SMTPConnection)
    (env : Env) (l : list IOEvent) :
  __init__ a = inr s ->
  Disconnected s
  /\ lock_held s = false
  /\ is_Blocked (fst (connect env no_kwargs (MkState s l))) = false
  /\ ~ refused_before_io (connect env no_kwargs (MkState s l)) (MkState s l).
Proof.
  intros Hi. unfold __init__ in Hi.
  destruct (_validate_config (init_fields a)) eqn:Hv; [discriminate Hi|].
  inversion Hi; subst s.
  split; [split; reflexivity|].
  split; [reflexivity|].
  split; [apply connect_acquires; reflexivity|].
  rewrite connect_refused_iff. cbn [self].
  rewrite update_settings_no_kwargs.
  apply validate_config_None_iff in Hv. rewrite Hv. discriminate.
Qed.

Lemma constructed_instance_connects_witness :
  Disconnected (init_fields default_args)
  /\ is_Blocked (fst (connect env_ready no_kwargs fresh)) = false.
Proof.
  destruct (@constructed_instance_connects default_args
              (init_fields default_args) env_ready [] eq_refl)
    as [H1 [_ [H3 _]]].
  split; [exact H1 | exact H3].
Defined.

(** X14: the local hostname is fixed by its first use.  A stored name is
    returned as it is, without asking the system; otherwise the first read
    stores what [socket.getfqdn()] answered, and every later read returns
    that same name and changes nothing, whatever the system would answer
    then. *)
Theorem local_hostname_is_cached (getfqdn getfqdn' : string) (st : State) :
  let first := local_hostname getfqdn st in
  local_hostname getfqdn' (snd first) = (fst first, snd first)
  /\ (forall name, st.(self).(_local_hostname) = Some name ->
      first = (Returned name, st))
  /\ (st.(self).(_local_hostname) = None ->
      first = (Returned getfqdn,
               MkState (set_local_hostname (Some getfqdn) st.(self)) st.(io))).
Proof.
  cbv zeta. destruct st as [s l].
  unfold local_hostname, bind, get_self, modify, ret. simpl.
  destruct (_local_hostname s) as [name|] eqn:E; simpl.
  - rewrite E. repeat split; try reflexivity.
    + intros n Hn. inversion Hn; subst. reflexivity.
    + discriminate.
  - repeat split; try reflexivity. discriminate.
Qed.
